(** * Text-mining dashboard: query construction, response folding and
      match percentage of [text-mining.py]

    The script asks the analyst for two dates and a comma separated keyword
    text, issues six searches (histogram, matched cardinality and total
    cardinality, for call transcriptions and for support emails) and renders
    two bar charts and four lines of figures.

    The embedding follows the script function by function.  Python values are
    modelled as follows:
    - [str] is [string]; a character is a code point below 256;
    - [int] is [Z];
    - [float] is IEEE 754 binary64, [spec_float] at precision 53 and
      maximal exponent 1024, rounding to nearest even;
    - a JSON document (request body, backend response) is [json]: strings,
      integers, null, arrays and objects, an object being an association
      list in document order;
    - the [dict] filled by the histogram loop is an association list that
      keeps insertion order and overwrites in place;
    - an exception is a constructor of [exn], a computation that may raise
      returns a [result];
    - the widgets of [st] and the client [es] are records of functions, and
      what the script makes visible (searches issued, charts, written lines)
      is the event list of the [ui] monad. *)

From Stdlib Require Import ZArith List String Ascii Bool Lia.
From Stdlib Require Import DecimalString SpecFloat.
Import ListNotations.

Local Open Scope string_scope.
Local Open Scope Z_scope.

(** ** Exceptions and fallible computations *)

Inductive exn : Type :=
| ZeroDivisionError
| OverflowError
| IndexError
| KeyError (key : string)
| TypeError
| ValueError
| UnboundLocalError (name : string)
| ElasticsearchException (what : string).

Inductive result (A : Type) : Type :=
| Ok (a : A)
| Raise (e : exn).

Arguments Ok {A} a.
Arguments Raise {A} e.

Definition rbind {A B : Type} (r : result A) (k : A -> result B) : result B :=
  match r with
  | Ok a => k a
  | Raise e => Raise e
  end.

Declare Scope result_scope.
Delimit Scope result_scope with result.
Notation "'try' x <- c 'in' k" := (rbind c (fun x => k))
  (at level 10, x name, c at level 100, k at level 200) : result_scope.

(** ** Python strings *)

Module Str.

(** [str.isspace] on the code points below 256. *)
Definition isspace (c : ascii) : bool :=
  let n := nat_of_ascii c in
  ((9 <=? n) && (n <=? 13) || (28 <=? n) && (n <=? 32)
   || (n =? 133) || (n =? 160))%nat.

(** [s.split(sep)] for a separator of one character: the pieces between
    the occurrences of [sep], empty pieces included. *)
Fixpoint split (sep : ascii) (s : string) : list string :=
  match s with
  | EmptyString => [EmptyString]
  | String c rest =>
      if Ascii.eqb c sep then EmptyString :: split sep rest
      else match split sep rest with
           | [] => [String c EmptyString]
           | piece :: pieces => String c piece :: pieces
           end
  end.

Fixpoint lstrip (s : string) : string :=
  match s with
  | EmptyString => EmptyString
  | String c rest => if isspace c then lstrip rest else s
  end.

Fixpoint rstrip (s : string) : string :=
  match s with
  | EmptyString => EmptyString
  | String c rest =>
      match rstrip rest with
      | EmptyString => if isspace c then EmptyString else String c EmptyString
      | kept => String c kept
      end
  end.

(** [s.strip()] *)
Definition strip (s : string) : string := rstrip (lstrip s).

(** [sep.join(parts)] *)
Fixpoint join (sep : string) (parts : list string) : string :=
  match parts with
  | [] => EmptyString
  | [p] => p
  | p :: rest => p ++ sep ++ join sep rest
  end.

Fixpoint all_space (s : string) : bool :=
  match s with
  | EmptyString => true
  | String c rest => isspace c && all_space rest
  end.

Fixpoint contains (c : ascii) (s : string) : bool :=
  match s with
  | EmptyString => false
  | String d rest => Ascii.eqb d c || contains c rest
  end.

Fixpoint count (c : ascii) (s : string) : nat :=
  match s with
  | EmptyString => O
  | String d rest => ((if Ascii.eqb d c then 1 else 0) + count c rest)%nat
  end.

Definition first (s : string) : option ascii :=
  match s with
  | EmptyString => None
  | String c _ => Some c
  end.

Fixpoint last (s : string) : option ascii :=
  match s with
  | EmptyString => None
  | String c EmptyString => Some c
  | String _ rest => last rest
  end.

(** [str(n).zfill(width)] for a natural number, as ["%0<width>d" % n]. *)
Definition of_nat (n : nat) : string := NilZero.string_of_uint (Nat.to_uint n).

Fixpoint zeros (k : nat) : string :=
  match k with
  | O => EmptyString
  | S k' => String "0" (zeros k')
  end.

Definition zfill (width : nat) (n : nat) : string :=
  let digits := of_nat n in
  zeros (width - String.length digits) ++ digits.

End Str.

(** [l[i]] for a non-negative index. *)
Definition list_index {A : Type} (l : list A) (i : nat) : result A :=
  match nth_error l i with
  | Some x => Ok x
  | None => Raise IndexError
  end.

(** ** JSON documents *)

#[local] Set Warnings "-register-all".

Inductive json : Type :=
| JNull
| JInt (n : Z)
| JStr (s : string)
| JList (items : list json)
| JObj (fields : list (string * json)).

Fixpoint assoc {A : Type} (k : string) (fields : list (string * A)) : option A :=
  match fields with
  | [] => None
  | (k', v) :: rest => if String.eqb k' k then Some v else assoc k rest
  end.

(** [d[k]] for a string key [k]: only a JSON object can be subscripted by a
    string, and a missing key is a [KeyError]. *)
Definition getitem (d : json) (k : string) : result json :=
  match d with
  | JObj fields =>
      match assoc k fields with
      | Some v => Ok v
      | None => Raise (KeyError k)
      end
  | _ => Raise TypeError
  end.

Fixpoint chars (s : string) : list json :=
  match s with
  | EmptyString => []
  | String c rest => JStr (String c EmptyString) :: chars rest
  end.

(** What [for x in v] iterates over: the items of an array, the keys of an
    object, the characters of a string. *)
Definition iterate (v : json) : result (list json) :=
  match v with
  | JList items => Ok items
  | JObj fields => Ok (map (fun kv => JStr (fst kv)) fields)
  | JStr s => Ok (chars s)
  | JNull | JInt _ => Raise TypeError
  end.

(** ** The ordered dictionary of the histogram *)

Module Dict.

(** Hashable keys. *)
Inductive key : Type :=
| KNone
| KInt (n : Z)
| KStr (s : string).

Definition key_eqb (a b : key) : bool :=
  match a, b with
  | KNone, KNone => true
  | KInt m, KInt n => Z.eqb m n
  | KStr s, KStr t => String.eqb s t
  | _, _ => false
  end.

(** [hash(v)] succeeds on atoms and raises on arrays and objects. *)
Definition hashable (v : json) : result key :=
  match v with
  | JNull => Ok KNone
  | JInt n => Ok (KInt n)
  | JStr s => Ok (KStr s)
  | JList _ | JObj _ => Raise TypeError
  end.

Definition t : Type := list (key * json).

Definition empty : t := [].

(** [d[k] = v]: overwrite where [k] already is, else append. *)
Fixpoint set (k : key) (v : json) (d : t) : t :=
  match d with
  | [] => [(k, v)]
  | (k', v') :: rest =>
      if key_eqb k' k then (k', v) :: rest else (k', v') :: set k v rest
  end.

Fixpoint get (k : key) (d : t) : option json :=
  match d with
  | [] => None
  | (k', v) :: rest => if key_eqb k' k then Some v else get k rest
  end.

Definition keys (d : t) : list key := map fst d.

End Dict.

(** ** Python numbers: [int / int], [float * int], [round(float, 2)] *)

Module Float.

Definition prec : Z := 53.
Definition emax : Z := 1024.

Definition float : Type := spec_float.

(** An integer as the quotient's operand: sign, magnitude, exponent 0.
    The magnitude is not rounded here; [SFdiv] rounds the quotient once. *)
Definition exact (n : Z) : float :=
  match n with
  | Z0 => S754_zero false
  | Zpos p => S754_finite false p 0
  | Zneg p => S754_finite true p 0
  end.

(** A computed float that is too large raises instead of being infinite. *)
Definition checked (x : float) : result float :=
  match x with
  | S754_infinity _ => Raise OverflowError
  | _ => Ok x
  end.

(** [a / b] on two [int]: the quotient rounded once to the nearest
    float, [ZeroDivisionError] when [b] is 0, [OverflowError] when the
    rounded quotient is out of range. *)
Definition int_truediv (a b : Z) : result float :=
  if b =? 0 then Raise ZeroDivisionError
  else checked (SFdiv prec emax (exact a) (exact b)).

(** [float(n)], for the literal operands of the script. *)
Definition of_int (n : Z) : float := binary_normalize prec emax n 0 false.

(** [x * n] for a float [x] and a literal [int] [n]. *)
Definition mul_int (x : float) (n : Z) : float :=
  SFmul prec emax x (of_int n).

(** Nearest integer to [a / b] for [0 < b], ties to the even one. *)
Definition div_half_even (a b : Z) : Z :=
  let q := a / b in
  match 2 * (a mod b) ?= b with
  | Lt => q
  | Gt => q + 1
  | Eq => if Z.even q then q else q + 1
  end.

(** The magnitude of [x], in hundredths, rounded half to even. *)
Definition hundredths (m : positive) (e : Z) : Z :=
  match e with
  | Zneg k => div_half_even (Zpos m * 100) (2 ^ Zpos k)
  | _ => Zpos m * 100 * 2 ^ e
  end.

(** [round(x, 2)]: the decimal with two places nearest to the exact
    value of [x] (ties to even), then the float nearest to that decimal.
    Zeros, infinities and NaN round to themselves. *)
Definition round2 (x : float) : result float :=
  match x with
  | S754_finite s m e =>
      match hundredths m e with
      | Zpos h =>
          checked (SFdiv prec emax (S754_finite s h 0) (exact 100))
      | _ => Ok (S754_zero s)
      end
  | _ => Ok x
  end.

End Float.

(** ** Calendar dates *)

Record date : Type := Date { year : nat; month : nat; day : nat }.

(** [d.isoformat()], that is ["%04d-%02d-%02d" % (year, month, day)]. *)
Definition isoformat (d : date) : string :=
  Str.zfill 4 (year d) ++ "-" ++ Str.zfill 2 (month d) ++ "-" ++ Str.zfill 2 (day d).

(** [a < b] on dates. *)
Definition date_ltb (a b : date) : bool :=
  ((year a <? year b)
   || (year a =? year b) && ((month a <? month b)
                             || (month a =? month b) && (day a <? day b)))%nat.

(** ** The page: widgets, backend client and what gets rendered *)

(** A value handed to [st.write]. *)
Inductive shown : Type :=
| ShownJson (v : json)
| ShownStr (s : string)
| ShownFloat (x : Float.float).

Inductive event : Type :=
| EvSearch (index : string) (body : json)
| EvBarChart (data : Dict.t) (column : string)
| EvWrite (args : list shown).

(** What the script uses of [st]: the two input widgets, read by label
    and key, and the chart.  [bar_chart data column] is the outcome of
    [st.bar_chart] on the frame that
    [pd.DataFrame.from_dict(data, orient="index", columns=[column])]
    builds: both are library code, which draws the chart or raises (pandas
    raises [ValueError] on a count that is a list of two). *)
Record streamlit : Type := {
  date_input : string -> string -> date;
  text_input : string -> string -> string;
  bar_chart : Dict.t -> string -> result unit
}.

(** The client [es]: [search] answers a body sent to an index, or raises. *)
Record elasticsearch : Type := {
  search : string -> json -> result json
}.

(** Computations of the page: the events they produce, in order, and their
    outcome.  A raised exception keeps the events produced before it. *)
Definition ui (A : Type) : Type := list event * result A.

Definition ret {A : Type} (a : A) : ui A := ([], Ok a).

Definition bind {A B : Type} (c : ui A) (k : A -> ui B) : ui B :=
  match c with
  | (evs, Ok a) => let (evs', r) := k a in ((evs ++ evs')%list, r)
  | (evs, Raise e) => (evs, Raise e)
  end.

Definition emit (ev : event) : ui unit := ([ev], Ok tt).

Definition lift {A : Type} (r : result A) : ui A := ([], r).

Declare Scope ui_scope.
Delimit Scope ui_scope with ui.
Notation "x <- c ;; k" := (bind c (fun x => k))
  (at level 61, c at next level, right associativity) : ui_scope.
Notation "c ;; k" := (bind c (fun _ => k))
  (at level 61, right associativity) : ui_scope.

(** A local variable that an earlier branch may have left unassigned. *)
Definition local {A : Type} (name : string) (v : option A) : result A :=
  match v with
  | Some a => Ok a
  | None => Raise (UnboundLocalError name)
  end.

Section Page.

Variable st : streamlit.
Variable es : elasticsearch.

(** [es.search(index=..., body=...)] *)
Definition es_search (index : string) (body : json) : ui json :=
  (emit (EvSearch index body) ;; lift (search es index body))%ui.

Definition pick_date_range (index_key : string) : string * string :=
  let date_start := date_input st "Enter range start:" ("start" ++ index_key) in
  let date_end := date_input st "Enter range end:" ("end" ++ index_key) in
  let date_start_formatted := isoformat date_start in
  let date_end_formatted := isoformat date_end in
  (date_start_formatted, date_end_formatted).

Definition get_user_input (key_input : string) : list string :=
  let user_input :=
    text_input st "Write a word or phrase, separate by comma:" key_input in
  map Str.strip (Str.split "," user_input).

Definition generate_graphs (histogram_data : Dict.t) (log_type : string)
  : ui unit :=
  (lift (bar_chart st histogram_data log_type) ;;
   emit (EvBarChart histogram_data log_type))%ui.

(** [round((partial / total) * 100, 2)]; [/] is defined on two [int]. *)
Definition percentage_of_total_logs (partial total : json)
  : result Float.float :=
  match partial, total with
  | JInt p, JInt t =>
      (try ratio <- Float.int_truediv p t in
       Float.round2 (Float.mul_int ratio 100))%result
  | _, _ => Raise TypeError
  end.

Definition obtain_matching_logs_body
    (query_str : string) (date_range : string * string)
    (range_keyword field_main : string) : json :=
  JObj [("_source", JList [JStr range_keyword; JStr field_main]);
        ("query",
         JObj [("bool",
                JObj [("must",
                       JList
                         [JObj [("query_string",
                                 JObj [("query", JStr query_str)])];
                          JObj [("range",
                                 JObj [(range_keyword,
                                        JObj [("gte", JStr (fst date_range));
                                              ("lt", JStr (snd date_range))])])]])])]);
        ("aggs",
         JObj [("daily_logs",
                JObj [("date_histogram",
                       JObj [("field", JStr range_keyword);
                             ("fixed_interval", JStr "1d")])])])].

(** The loop [for bucket in ...: histogram_data[...] = ...]. *)
Fixpoint fill_histogram (buckets : list json) (histogram_data : Dict.t)
  : result Dict.t :=
  match buckets with
  | [] => Ok histogram_data
  | bucket :: rest =>
      (try v <- getitem bucket "doc_count" in
       try k <- getitem bucket "key_as_string" in
       try hk <- Dict.hashable k in
       fill_histogram rest (Dict.set hk v histogram_data))%result
  end.

(** [res["aggregations"]["daily_logs"]["buckets"]] *)
Definition daily_buckets (res : json) : result json :=
  (try aggregations <- getitem res "aggregations" in
   try daily_logs <- getitem aggregations "daily_logs" in
   getitem daily_logs "buckets")%result.

Definition histogram_of_response (res : json) : result Dict.t :=
  (try buckets <- daily_buckets res in
   try items <- iterate buckets in
   fill_histogram items Dict.empty)%result.

Definition obtain_matching_logs
    (index_name query_str : string) (date_range : string * string)
    (range_keyword field_main : string) : ui Dict.t :=
  (res <- es_search index_name
            (obtain_matching_logs_body query_str date_range
                                       range_keyword field_main) ;;
   lift (histogram_of_response res))%ui.

Definition cardinality_matched_logs_body
    (query_str : string) (date_range : string * string)
    (range_keyword field_main : string) : json :=
  JObj [("query",
         JObj [("bool",
                JObj [("must",
                       JList
                         [JObj [("query_string",
                                 JObj [("query", JStr query_str)])];
                          JObj [("range",
                                 JObj [(range_keyword,
                                        JObj [("gte", JStr (fst date_range));
                                              ("lt", JStr (snd date_range))])])]])])]);
        ("aggs",
         JObj [("aggregations",
                JObj [("cardinality",
                       JObj [("field", JStr (field_main ++ ".keyword"))])])])].

Definition cardinality_of_response (res : json) : result json :=
  (try aggregations <- getitem res "aggregations" in
   try inner <- getitem aggregations "aggregations" in
   getitem inner "value")%result.

Definition cardinality_matched_logs
    (index_name query_str : string) (date_range : string * string)
    (range_keyword field_main : string) : ui json :=
  (res <- es_search index_name
            (cardinality_matched_logs_body query_str date_range
                                           range_keyword field_main) ;;
   lift (cardinality_of_response res))%ui.

Definition cardinality_all_logs_body
    (query_str : string) (date_range : string * string)
    (range_keyword field_main : string) : json :=
  JObj [("query",
         JObj [("bool",
                JObj [("must",
                       JList
                         [JObj [("range",
                                 JObj [(range_keyword,
                                        JObj [("gte", JStr (fst date_range));
                                              ("lt", JStr (snd date_range))])])]])])]);
        ("aggs",
         JObj [("aggregations",
                JObj [("cardinality",
                       JObj [("field", JStr (field_main ++ ".keyword"))])])])].

Definition cardinality_all_logs
    (index_name query_str : string) (date_range : string * string)
    (range_keyword field_main : string) : ui json :=
  (res <- es_search index_name
            (cardinality_all_logs_body query_str date_range
                                       range_keyword field_main) ;;
   lift (cardinality_of_response res))%ui.

(** The locals assigned under [if user_input:]. *)
Record locals : Type := {
  matching_call_logs : option json;
  all_call_logs : option json;
  matching_email_logs : option json;
  all_email_logs : option json
}.

Definition unassigned : locals :=
  {| matching_call_logs := None; all_call_logs := None;
     matching_email_logs := None; all_email_logs := None |}.

(** ["{} and {}".format(user_input[0], user_input[1])] *)
Definition format_query (user_input : list string) : result string :=
  (try first <- list_index user_input 0 in
   try second <- list_index user_input 1 in
   Ok (first ++ " and " ++ second))%result.

(** ["'{}'".format(term)] *)
Definition quoted (term : string) : string := "'" ++ term ++ "'".

(** The block [with col1:]. *)
Definition generate_content_col1 (input_keyword : string)
  : ui (list string * locals) :=
  let dates := pick_date_range input_keyword in
  let user_input := get_user_input input_keyword in
  match user_input with
  | [] => ret (user_input, unassigned)
  | _ :: _ =>
      (query_str <- lift (format_query user_input) ;;
       res <- obtain_matching_logs
                "transcriptions_index" query_str dates "called_at" "utterance" ;;
       matching_calls <- cardinality_matched_logs
                "transcriptions_index" query_str dates "called_at" "utterance" ;;
       all_calls <- cardinality_all_logs
                "transcriptions_index" query_str dates "called_at" "utterance" ;;
       res2 <- obtain_matching_logs
                "intercoms_index" query_str dates "created_at" "body" ;;
       matching_emails <- cardinality_matched_logs
                "intercoms_index" query_str dates "created_at" "body" ;;
       all_emails <- cardinality_all_logs
                "intercoms_index" query_str dates "created_at" "body" ;;
       generate_graphs res "calls" ;;
       generate_graphs res2 "emails" ;;
       ret (user_input,
            {| matching_call_logs := Some matching_calls;
               all_call_logs := Some all_calls;
               matching_email_logs := Some matching_emails;
               all_email_logs := Some all_emails |}))%ui
  end.

(** The block [with col2:]. *)
Definition generate_content_col2 (user_input : list string) (vars : locals)
  : ui unit :=
  (matching_calls <- lift (local "matching_call_logs" (matching_call_logs vars)) ;;
   first <- lift (list_index user_input 0) ;;
   second <- lift (list_index user_input 1) ;;
   emit (EvWrite [ShownJson matching_calls;
                  ShownStr "call logs containing keywords:";
                  ShownStr (quoted first); ShownStr "and";
                  ShownStr (quoted second)]) ;;
   matching_calls <- lift (local "matching_call_logs" (matching_call_logs vars)) ;;
   all_calls <- lift (local "all_call_logs" (all_call_logs vars)) ;;
   percent <- lift (percentage_of_total_logs matching_calls all_calls) ;;
   emit (EvWrite [ShownFloat percent; ShownStr "percent of all call logs"]) ;;
   matching_emails <- lift (local "matching_email_logs" (matching_email_logs vars)) ;;
   first <- lift (list_index user_input 0) ;;
   second <- lift (list_index user_input 1) ;;
   emit (EvWrite [ShownJson matching_emails;
                  ShownStr "email logs containing keywords:";
                  ShownStr (quoted first); ShownStr "and";
                  ShownStr (quoted second)]) ;;
   matching_emails <- lift (local "matching_email_logs" (matching_email_logs vars)) ;;
   all_emails <- lift (local "all_email_logs" (all_email_logs vars)) ;;
   percent <- lift (percentage_of_total_logs matching_emails all_emails) ;;
   emit (EvWrite [ShownFloat percent; ShownStr "percent of all email logs"]))%ui.

Definition generate_content (input_keyword : string) : ui unit :=
  (scope <- generate_content_col1 input_keyword ;;
   generate_content_col2 (fst scope) (snd scope))%ui.

End Page.

(** ** Reading a request body *)

(** The clause list under [query.bool.must]. *)
Definition clauses (body : json) : result json :=
  (try query <- getitem body "query" in
   try bool_ <- getitem query "bool" in
   getitem bool_ "must")%result.

(** The shapes a clause or an aggregation request can have. *)
Definition query_string_clause (query_str : string) : json :=
  JObj [("query_string", JObj [("query", JStr query_str)])].

Definition range_clause (field gte lt : string) : json :=
  JObj [("range", JObj [(field, JObj [("gte", JStr gte); ("lt", JStr lt)])])].

Definition date_histogram_aggs (field interval : string) : json :=
  JObj [("daily_logs",
         JObj [("date_histogram",
                JObj [("field", JStr field); ("fixed_interval", JStr interval)])])].


(** The document field a clause is restricted to: the [default_field] of a
    [query_string] clause (without one it searches every field), the single
    key of any other clause. *)
Definition clause_field (clause : json) : option string :=
  match clause with
  | JObj [(kind, JObj options)] =>
      if String.eqb kind "query_string" then
        match assoc "default_field" options with
        | Some (JStr field) => Some field
        | _ => None
        end
      else
        match options with
        | [(field, _)] => Some field
        | _ => None
        end
  | _ => None
  end.

Definition is_search (ev : event) : bool :=
  match ev with
  | EvSearch _ _ => true
  | _ => false
  end.

(** ** Vocabulary of the statements *)

(** A bucket of the response read as a key and a count. *)
Definition bucket_entry (b : json) (kv : Dict.key * json) : Prop :=
  exists k, getitem b "key_as_string" = Ok k
            /\ Dict.hashable k = Ok (fst kv)
            /\ getitem b "doc_count" = Ok (snd kv).

(** A key sequence with every repeated occurrence dropped. *)
Fixpoint first_occurrences (ks : list Dict.key) : list Dict.key :=
  match ks with
  | [] => []
  | k :: rest =>
      k :: filter (fun k' => negb (Dict.key_eqb k k')) (first_occurrences rest)
  end.

(** The histogram loop on buckets already read as entries. *)
Definition fill_entries (kvs : list (Dict.key * json)) (d : Dict.t) : Dict.t :=
  fold_left (fun acc kv => Dict.set (fst kv) (snd kv) acc) kvs d.

(** [k] is not among the keys [ks]. *)
Definition absent (ks : list Dict.key) (k : Dict.key) : bool :=
  negb (existsb (fun k' => Dict.key_eqb k' k) ks).

(** A computation that issues no search. *)
Definition quiet {A : Type} (c : ui A) : Prop :=
  forall index body, ~ In (EvSearch index body) (fst c).

(** ** Sample sessions *)

Definition bucket (day : string) (n : Z) : json :=
  JObj [("key_as_string", JStr day); ("key", JInt 0); ("doc_count", JInt n)].

Definition histogram_response (buckets : list json) : json :=
  JObj [("took", JInt 3);
        ("aggregations", JObj [("daily_logs", JObj [("buckets", JList buckets)])])].

Definition cardinality_response (n : Z) : json :=
  JObj [("took", JInt 3);
        ("aggregations", JObj [("aggregations", JObj [("value", JInt n)])])].

(** Which of the three bodies a request is: it has a [daily_logs]
    aggregation, or else two clauses, or else one. *)
Definition is_histogram_body (body : json) : bool :=
  match getitem body "aggs" with
  | Ok aggs => match getitem aggs "daily_logs" with Ok _ => true | _ => false end
  | _ => false
  end.

Definition is_matched_body (body : json) : bool :=
  match clauses body with
  | Ok (JList [_; _]) => true
  | _ => false
  end.

(** A backend that holds [matched] of [total] documents in every index and
    answers the histogram with [buckets]. *)
Definition sample_es (buckets : list json) (matched total : Z) : elasticsearch :=
  {| search := fun _ body =>
       if is_histogram_body body then Ok (histogram_response buckets)
       else if is_matched_body body then Ok (cardinality_response matched)
       else Ok (cardinality_response total) |}.

(** A chart library that draws integer counts and rejects anything else. *)
Definition sample_chart (data : Dict.t) (column : string) : result unit :=
  if forallb (fun kv => match snd kv with JInt _ => true | _ => false end) data
  then Ok tt
  else Raise ValueError.

Definition sample_st (start finish : date) (text : string) : streamlit :=
  {| date_input := fun label _ =>
       if String.eqb label "Enter range start:" then start else finish;
     text_input := fun _ _ => text;
     bar_chart := sample_chart |}.

Definition january : streamlit :=
  sample_st (Date 2024 1 1) (Date 2024 1 31) "refund, delay".

Definition reversed : streamlit :=
  sample_st (Date 2024 2 1) (Date 2024 1 1) "refund, delay".

Definition two_days : list json :=
  [bucket "2024-01-01" 3; bucket "2024-01-02" 5].

(** A backend whose email index times out while the call index answers. *)
Definition timeout_es : elasticsearch :=
  {| search := fun index body =>
       if String.eqb index "intercoms_index"
       then Raise (ElasticsearchException "ConnectionTimeout")
       else search (sample_es two_days 45 300) index body |}.

(** ** The plan of a run and what it renders *)

(** The six searches of the script, in its order, for a query string and a
    pair of dates. *)
Definition planned_searches (query_str : string) (dates : string * string)
  : list event :=
  [EvSearch "transcriptions_index"
     (obtain_matching_logs_body query_str dates "called_at" "utterance");
   EvSearch "transcriptions_index"
     (cardinality_matched_logs_body query_str dates "called_at" "utterance");
   EvSearch "transcriptions_index"
     (cardinality_all_logs_body query_str dates "called_at" "utterance");
   EvSearch "intercoms_index"
     (obtain_matching_logs_body query_str dates "created_at" "body");
   EvSearch "intercoms_index"
     (cardinality_matched_logs_body query_str dates "created_at" "body");
   EvSearch "intercoms_index"
     (cardinality_all_logs_body query_str dates "created_at" "body")].

(** The line of a count and the line of a percentage. *)
Definition count_line (count : json) (caption first second : string) : event :=
  EvWrite [ShownJson count; ShownStr caption;
           ShownStr (quoted first); ShownStr "and"; ShownStr (quoted second)].

Definition percent_line (percent : Float.float) (caption : string) : event :=
  EvWrite [ShownFloat percent; ShownStr caption].

Definition rendering (ev : event) : bool := negb (is_search ev).

(** A JSON value that is an integer. *)
Definition is_int (v : json) : bool :=
  match v with
  | JInt _ => true
  | _ => false
  end.

(** ** Reading a date bound back *)

(** The invariant of a calendar date (the day bound is the loosest one). *)
Definition valid_date (d : date) : Prop :=
  1 <= Z.of_nat (year d) <= 9999
  /\ 1 <= Z.of_nat (month d) <= 12
  /\ 1 <= Z.of_nat (day d) <= 31.

Definition is_digit (c : ascii) : bool :=
  ((48 <=? nat_of_ascii c) && (nat_of_ascii c <=? 57))%nat.

Definition digit_value (c : ascii) : nat := (nat_of_ascii c - 48)%nat.

(** The date written as [YYYY-MM-DD], if the text has that shape. *)
Definition parse_iso (s : string) : option date :=
  match s with
  | String y1 (String y2 (String y3 (String y4 (String sep1
      (String m1 (String m2 (String sep2
         (String d1 (String d2 EmptyString))))))))) =>
      if forallb is_digit [y1; y2; y3; y4; m1; m2; d1; d2]
         && Ascii.eqb sep1 "-" && Ascii.eqb sep2 "-"
      then Some (Date (1000 * digit_value y1 + 100 * digit_value y2
                       + 10 * digit_value y3 + digit_value y4)
                      (10 * digit_value m1 + digit_value m2)
                      (10 * digit_value d1 + digit_value d2))
      else None
  | _ => None
  end.

(** A padded number has the width asked for, digits only, and its value. *)
Definition padded4 (n : nat) : bool :=
  match Str.zfill 4 n with
  | String a (String b (String c (String d EmptyString))) =>
      forallb is_digit [a; b; c; d]
      && (1000 * digit_value a + 100 * digit_value b
          + 10 * digit_value c + digit_value d =? n)%nat
  | _ => false
  end.

Definition padded2 (n : nat) : bool :=
  match Str.zfill 2 n with
  | String a (String b EmptyString) =>
      forallb is_digit [a; b] && (10 * digit_value a + digit_value b =? n)%nat
  | _ => false
  end.

(** ** Comparing floats as scaled integers *)

(** What a rounded mantissa and exponent are turned into. *)
Definition classify (s : bool) (m e : Z) : spec_float :=
  match m with
  | Z0 => S754_zero s
  | Zpos p =>
      if e <=? Float.emax - Float.prec then S754_finite s p e
      else S754_infinity s
  | Zneg _ => S754_nan
  end.

(** The exponent by which values are scaled to compare them as integers. *)
Definition scale : Z := 1130.

(** [x] is [+0.0] or a positive float of exponent at least [low] whose
    value is at most [c / 2 ^ 52]. *)
Definition below (low : Z) (x : Float.float) (c : Z) : Prop :=
  match x with
  | S754_zero false => True
  | S754_finite false m e =>
      low <= e /\ Zpos m * 2 ^ (e + scale) <= c * 2 ^ (scale - 52)
  | _ => False
  end.

(** A percentage is [+0.0] or a positive float of value at most 100. *)
Definition percent_in_range (p : Float.float) : bool :=
  match p with
  | S754_zero false => true
  | S754_finite false m e =>
      Zpos m * 2 ^ Z.max 0 e <=? 100 * 2 ^ Z.max 0 (- e)
  | _ => false
  end.

(** The float nearest to [h] hundredths is a percentage in range. *)
Definition hundredth_in_range (h : positive) : bool :=
  match Float.checked
          (SFdiv Float.prec Float.emax (S754_finite false h 0) (Float.exact 100))
  with
  | Ok p => percent_in_range p
  | Raise _ => false
  end.

Definition positives_upto (n : Z) : list positive :=
  map Pos.of_nat (seq 1 (Z.to_nat n)).

(** A backend with call logs but no email in the range. *)
Definition no_email_es : elasticsearch :=
  {| search := fun index body =>
       if String.eqb index "intercoms_index"
       then search (sample_es [] 0 0) index body
       else search (sample_es two_days 45 300) index body |}.

(** * Properties *)

(** ** Splitting, stripping and joining *)

Module StrFacts.
Import Str.

Lemma split_not_nil (sep : ascii) (s : string) : split sep s <> [].
Proof.
  destruct s as [|c rest]; simpl; [discriminate|].
  destruct (Ascii.eqb c sep); [discriminate|].
  destruct (split sep rest); discriminate.
Qed.

Lemma join_cons_cons (sep p q : string) (ps : list string) :
  join sep (p :: q :: ps) = p ++ sep ++ join sep (q :: ps).
Proof. reflexivity. Qed.

Lemma join_cons_char (sep : string) (c : ascii) (p : string) (ps : list string) :
  join sep (String c p :: ps) = String c (join sep (p :: ps)).
Proof. destruct ps; reflexivity. Qed.

(** Joining the pieces with the separator gives the text back. *)
Lemma join_split (sep : ascii) (s : string) :
  join (String sep EmptyString) (split sep s) = s.
Proof.
  induction s as [|c rest IH]; simpl; [reflexivity|].
  destruct (Ascii.eqb c sep) eqn:E.
  - apply Ascii.eqb_eq in E; subst c.
    pose proof (split_not_nil sep rest) as NE.
    destruct (split sep rest) as [|p ps]; [contradiction|].
    rewrite join_cons_cons, IH. reflexivity.
  - pose proof (split_not_nil sep rest) as NE.
    destruct (split sep rest) as [|p ps]; [contradiction|].
    rewrite join_cons_char, IH. reflexivity.
Qed.

(** No piece contains the separator. *)
Lemma split_pieces_clean (sep : ascii) (s : string) :
  Forall (fun piece => contains sep piece = false) (split sep s).
Proof.
  induction s as [|c rest IH]; simpl.
  - repeat constructor.
  - destruct (Ascii.eqb c sep) eqn:E.
    + constructor; [reflexivity | exact IH].
    + destruct (split sep rest) as [|p ps]; [repeat constructor; simpl; now rewrite E|].
      inversion IH; subst. constructor; [simpl; now rewrite E | assumption].
Qed.

(** One piece more than there are separators: empty pieces are kept. *)
Lemma length_split (sep : ascii) (s : string) :
  List.length (split sep s) = S (count sep s).
Proof.
  induction s as [|c rest IH]; simpl; [reflexivity|].
  destruct (Ascii.eqb c sep); simpl.
  - now rewrite IH.
  - pose proof (split_not_nil sep rest) as NE.
    destruct (split sep rest) as [|p ps]; [contradiction|].
    simpl in *. exact IH.
Qed.

Lemma count_absent (sep : ascii) (s : string) :
  contains sep s = false -> count sep s = O.
Proof.
  induction s as [|c rest IH]; simpl; [reflexivity|].
  destruct (Ascii.eqb c sep); simpl; [discriminate | exact IH].
Qed.

(** A text without the separator is its own single piece. *)
Lemma split_absent (sep : ascii) (s : string) :
  contains sep s = false -> split sep s = [s].
Proof.
  induction s as [|c rest IH]; simpl; [reflexivity|].
  destruct (Ascii.eqb c sep); simpl; [discriminate|].
  intros H. rewrite (IH H). reflexivity.
Qed.

Lemma lstrip_decompose (s : string) :
  exists lead, s = lead ++ lstrip s /\ all_space lead = true.
Proof.
  induction s as [|c rest [lead [E A]]]; simpl.
  - exists EmptyString. split; reflexivity.
  - destruct (isspace c) eqn:W.
    + exists (String c lead). simpl. rewrite W, A.
      split; [f_equal; exact E | reflexivity].
    + exists EmptyString. split; reflexivity.
Qed.

Lemma rstrip_decompose (s : string) :
  exists trail, s = rstrip s ++ trail /\ all_space trail = true.
Proof.
  induction s as [|c rest [trail [E A]]]; simpl.
  - exists EmptyString. split; reflexivity.
  - destruct (rstrip rest) as [|d kept] eqn:R.
    + destruct (isspace c) eqn:W.
      * exists (String c trail). simpl in *. rewrite W, A.
        split; [f_equal; exact E | reflexivity].
      * exists trail. simpl in *. split; [f_equal; exact E | exact A].
    + exists trail. simpl in *. split; [f_equal; exact E | exact A].
Qed.

(** Stripping removes white space at both ends and nothing else. *)
Lemma strip_decompose (s : string) :
  exists lead trail,
    s = lead ++ strip s ++ trail
    /\ all_space lead = true /\ all_space trail = true.
Proof.
  destruct (lstrip_decompose s) as [lead [E1 A1]].
  destruct (rstrip_decompose (lstrip s)) as [trail [E2 A2]].
  exists lead, trail. unfold strip. rewrite <- E2. auto.
Qed.

Lemma lstrip_first (s : string) (c : ascii) :
  first (lstrip s) = Some c -> isspace c = false.
Proof.
  induction s as [|d rest IH]; simpl; [discriminate|].
  destruct (isspace d) eqn:W; [exact IH|].
  simpl. intros [= <-]. exact W.
Qed.

Lemma rstrip_first (s : string) (c : ascii) :
  first (rstrip s) = Some c -> first s = Some c.
Proof.
  destruct s as [|d rest]; simpl; [discriminate|].
  destruct (rstrip rest); [destruct (isspace d)|]; simpl; auto; discriminate.
Qed.

Lemma rstrip_last (s : string) (c : ascii) :
  last (rstrip s) = Some c -> isspace c = false.
Proof.
  induction s as [|d rest IH]; simpl; [discriminate|].
  destruct (rstrip rest) as [|e kept] eqn:R.
  - destruct (isspace d) eqn:W; simpl; [discriminate|].
    intros [= <-]. exact W.
  - intros H. apply IH. exact H.
Qed.

(** A stripped term neither starts nor ends with white space. *)
Lemma strip_ends (s : string) (c : ascii) :
  first (strip s) = Some c \/ last (strip s) = Some c -> isspace c = false.
Proof.
  unfold strip. intros [H|H].
  - apply (lstrip_first s). now apply rstrip_first.
  - now apply (rstrip_last (lstrip s)).
Qed.

End StrFacts.

(** ** The quotient of equal integers *)

Module FloatFacts.
Import Float.

Lemma div_core_same (p : positive) :
  SFdiv_core_binary prec emax (Zpos p) 0 (Zpos p) 0
  = (2 ^ 53, -53, loc_Exact).
Proof.
  unfold SFdiv_core_binary.
  rewrite (Z.sub_diag (Zdigits2 (Zpos p) + 0)).
  change (Z.min (fexp prec emax 0) (0 - 0)) with (-53).
  change (0 - 0 - -53) with 53.
  cbv beta iota zeta.
  rewrite Z.shiftl_mul_pow2 by lia.
  assert (Zpos p <> 0) as NZ by discriminate.
  rewrite (Z.mul_comm (Zpos p)).
  pose proof (Z.div_mul (2 ^ 53) (Zpos p) NZ) as Q.
  pose proof (Z.mod_mul (2 ^ 53) (Zpos p) NZ) as R.
  unfold Z.div, Z.modulo in Q, R.
  destruct (Z.div_eucl (2 ^ 53 * Zpos p) (Zpos p)) as [q r].
  cbn [fst snd] in Q, R. subst q r.
  unfold new_location.
  destruct (Z.even (Zpos p)); reflexivity.
Qed.

Lemma int_truediv_same (t : Z) : 0 < t -> int_truediv t t = Ok (of_int 1).
Proof.
  intros H. unfold int_truediv.
  destruct (Z.eqb_spec t 0) as [->|_]; [lia|].
  destruct t as [|p|p]; try lia.
  unfold exact, SFdiv. rewrite div_core_same. reflexivity.
Qed.

Lemma int_truediv_zero (t : Z) : 0 < t -> int_truediv 0 t = Ok (of_int 0).
Proof.
  intros H. unfold int_truediv.
  destruct (Z.eqb_spec t 0) as [->|_]; [lia|].
  destruct t as [|p|p]; try lia. reflexivity.
Qed.

End FloatFacts.

(** ** The match percentage *)

(** C6: for [matched >= 0] and [total > 0] the percentage is
    [round(matched / total * 100, 2)] with the division defined (no
    [ZeroDivisionError]); hence [percentage(0, N)] is [0.0],
    [percentage(N, N)] is [100.0] and [percentage(45, 300)] is [15.0]. *)
Theorem percentage_of_total_logs_value (matched total : Z) :
  0 <= matched -> 0 < total ->
  percentage_of_total_logs (JInt matched) (JInt total)
  = (try ratio <- Float.checked
                    (SFdiv Float.prec Float.emax
                           (Float.exact matched) (Float.exact total)) in
     Float.round2 (Float.mul_int ratio 100))%result
  /\ percentage_of_total_logs (JInt 0) (JInt total) = Ok (Float.of_int 0)
  /\ percentage_of_total_logs (JInt total) (JInt total) = Ok (Float.of_int 100)
  /\ percentage_of_total_logs (JInt 45) (JInt 300) = Ok (Float.of_int 15).
Proof.
  intros Hm Ht. unfold percentage_of_total_logs.
  split; [|split; [|split]].
  - unfold Float.int_truediv.
    destruct (Z.eqb_spec total 0) as [->|_]; [lia | reflexivity].
  - rewrite (FloatFacts.int_truediv_zero total Ht). reflexivity.
  - rewrite (FloatFacts.int_truediv_same total Ht). reflexivity.
  - vm_compute. reflexivity.
Qed.

Lemma percentage_of_total_logs_value_witness :
  percentage_of_total_logs (JInt 1) (JInt 3)
  = Ok (S754_finite false 4690780486883082 (-47))
  /\ percentage_of_total_logs (JInt 3) (JInt 3) = Ok (Float.of_int 100).
Proof.
  destruct (percentage_of_total_logs_value 1 3) as [H [_ [H100 _]]]; [lia | lia |].
  split; [rewrite H; vm_compute; reflexivity | exact H100].
Defined.

(** ** Keyword terms and the query string *)

(** C4 (as the script has it): the raw text is split on [","], empty
    pieces kept, and each piece is stripped of white space at both ends;
    the query string is built from the first two terms only, joined by
    [" and "]: later terms are left out and fewer than two terms raise
    [IndexError].  It is the join of the whole sequence exactly for two
    terms, as for ["refund, delay"]. *)
Theorem keyword_terms_and_query (st : streamlit) (key_input : string) :
  let raw := text_input st "Write a word or phrase, separate by comma:" key_input in
  let pieces := Str.split "," raw in
  let terms := get_user_input st key_input in
  Str.join "," pieces = raw
  /\ List.length pieces = S (Str.count "," raw)
  /\ Forall (fun piece => Str.contains "," piece = false) pieces
  /\ terms = map Str.strip pieces
  /\ Forall (fun piece =>
               (exists lead trail,
                   piece = lead ++ Str.strip piece ++ trail
                   /\ Str.all_space lead = true /\ Str.all_space trail = true)
               /\ (forall c, Str.first (Str.strip piece) = Some c
                             \/ Str.last (Str.strip piece) = Some c ->
                             Str.isspace c = false)) pieces
  /\ format_query terms
     = match terms with
       | first :: second :: _ => Ok (first ++ " and " ++ second)
       | _ => Raise IndexError
       end
  /\ (forall first second : string,
         format_query [first; second] = Ok (Str.join " and " [first; second]))
  /\ map Str.strip (Str.split "," "refund, delay") = ["refund"; "delay"]
  /\ format_query ["refund"; "delay"] = Ok "refund and delay".
Proof.
  cbv zeta.
  split; [apply StrFacts.join_split|].
  split; [apply StrFacts.length_split|].
  split; [apply StrFacts.split_pieces_clean|].
  split; [reflexivity|].
  split.
  { apply Forall_forall. intros piece _. split.
    - apply StrFacts.strip_decompose.
    - apply StrFacts.strip_ends. }
  split.
  { destruct (get_user_input st key_input) as [|first [|second rest]]; reflexivity. }
  split; [reflexivity|].
  split; reflexivity.
Qed.

(** C4, as stated, fails on three terms: the third is not in the query. *)
Lemma query_string_drops_third_term :
  let terms := get_user_input
                 (sample_st (Date 2024 1 1) (Date 2024 1 31) "refund, delay, late")
                 "one" in
  terms = ["refund"; "delay"; "late"]
  /\ format_query terms = Ok "refund and delay"
  /\ Str.join " and " terms = "refund and delay and late"
  /\ format_query terms <> Ok (Str.join " and " terms).
Proof.
  cbv zeta.
  split; [reflexivity|].
  split; [reflexivity|].
  split; [reflexivity|].
  discriminate.
Qed.

(** ** The three request bodies *)

(** C7 (as the script has it): the histogram body is a boolean AND of
    exactly two clauses, a [query_string] clause that carries the query
    string alone (it names no field: the text field of the channel occurs
    only in the [_source] list) and a range clause on the timestamp field
    with [gte] the start and [lt] the end, together with a [date_histogram]
    aggregation on the timestamp field with the fixed interval ["1d"]; the
    dates 2024-01-01 and 2024-01-31 give the bounds ["2024-01-01"] and
    ["2024-01-31"]. *)
Theorem obtain_matching_logs_body_shape
    (query_str : string) (date_range : string * string)
    (range_keyword field_main : string) :
  let body :=
    obtain_matching_logs_body query_str date_range range_keyword field_main in
  clauses body
  = Ok (JList [query_string_clause query_str;
               range_clause range_keyword (fst date_range) (snd date_range)])
  /\ clause_field (query_string_clause query_str) = None
  /\ clause_field (range_clause range_keyword (fst date_range) (snd date_range))
     = Some range_keyword
  /\ getitem body "aggs" = Ok (date_histogram_aggs range_keyword "1d")
  /\ getitem body "_source" = Ok (JList [JStr range_keyword; JStr field_main])
  /\ (forall other_field : string,
         clauses (obtain_matching_logs_body
                    query_str date_range range_keyword other_field)
         = clauses body)
  /\ (forall (text key : string),
         pick_date_range (sample_st (Date 2024 1 1) (Date 2024 1 31) text) key
         = ("2024-01-01", "2024-01-31")).
Proof.
  cbv zeta.
  split; [reflexivity|].
  split; [reflexivity|].
  split.
  { unfold range_clause, clause_field. cbn. reflexivity. }
  split; [reflexivity|].
  split; [reflexivity|].
  split; [reflexivity|].
  intros text key. reflexivity.
Qed.

(** C7, as stated, fails: the text clause of the calls histogram is not a
    match on the text field [utterance]; it names no field at all. *)
Lemma text_clause_names_no_field :
  let body := obtain_matching_logs_body
                "refund and delay" ("2024-01-01", "2024-01-31")
                "called_at" "utterance" in
  let text_clause :=
    JObj [("query_string", JObj [("query", JStr "refund and delay")])] in
  let dates_clause :=
    JObj [("range",
           JObj [("called_at",
                  JObj [("gte", JStr "2024-01-01"); ("lt", JStr "2024-01-31")])])] in
  clauses body = Ok (JList [text_clause; dates_clause])
  /\ clause_field dates_clause = Some "called_at"
  /\ clause_field text_clause = None
  /\ clause_field text_clause <> Some "utterance".
Proof.
  cbv zeta.
  split; [reflexivity|].
  split; [reflexivity|].
  split; [reflexivity|].
  discriminate.
Qed.


(** C10: the total cardinality does not depend on the query string: two
    query strings give the same body, and against the same backend the same
    search, the same outcome and the same count. *)
Theorem cardinality_all_logs_ignores_query
    (es : elasticsearch) (index_name query_str query_str' : string)
    (date_range : string * string) (range_keyword field_main : string) :
  cardinality_all_logs_body query_str date_range range_keyword field_main
  = cardinality_all_logs_body query_str' date_range range_keyword field_main
  /\ cardinality_all_logs es index_name query_str date_range range_keyword field_main
     = cardinality_all_logs es index_name query_str' date_range range_keyword field_main.
Proof.
  split; reflexivity.
Qed.

(** ** The histogram dictionary *)

Module DictFacts.
Import Dict.

Lemma key_eqb_eq (a b : key) : key_eqb a b = true <-> a = b.
Proof.
  destruct a, b; simpl; split; intros H; try discriminate; try reflexivity.
  - apply Z.eqb_eq in H. now subst.
  - injection H as ->. apply Z.eqb_refl.
  - apply String.eqb_eq in H. now subst.
  - injection H as ->. apply String.eqb_refl.
Qed.

Lemma key_eqb_refl (a : key) : key_eqb a a = true.
Proof. now apply key_eqb_eq. Qed.

Lemma key_eqb_sym (a b : key) : key_eqb a b = key_eqb b a.
Proof.
  destruct (key_eqb a b) eqn:E.
  - apply key_eqb_eq in E. subst. symmetry. apply key_eqb_refl.
  - destruct (key_eqb b a) eqn:E'; [|reflexivity].
    apply key_eqb_eq in E'. subst. now rewrite key_eqb_refl in E.
Qed.

Lemma absent_In (ks : list key) (k : key) : absent ks k = true <-> ~ In k ks.
Proof.
  unfold absent. induction ks as [|a ks IH]; simpl.
  - split; auto.
  - destruct (key_eqb a k) eqn:E; simpl.
    + apply key_eqb_eq in E. subst. split; [discriminate | intros H; exfalso; auto].
    + rewrite IH. split; [intros H [->|I]; [now rewrite key_eqb_refl in E | auto] | auto].
Qed.

Lemma keys_set (k : key) (v : json) (d : t) :
  keys (set k v d) = if absent (keys d) k then (keys d ++ [k])%list else keys d.
Proof.
  unfold absent. induction d as [|[k' v'] d IH]; simpl; [reflexivity|].
  destruct (key_eqb k' k) eqn:E; simpl; [reflexivity|].
  fold (keys (set k v d)). fold (keys d). rewrite IH.
  destruct (existsb (fun k'0 => key_eqb k'0 k) (keys d)); reflexivity.
Qed.

Lemma get_set (k k' : key) (v : json) (d : t) :
  get k (set k' v d) = if key_eqb k' k then Some v else get k d.
Proof.
  induction d as [|[a w] d IH]; simpl; [reflexivity|].
  destruct (key_eqb a k') eqn:E; simpl.
  - apply key_eqb_eq in E. subst a. destruct (key_eqb k' k); reflexivity.
  - rewrite IH. destruct (key_eqb a k) eqn:E2; [|reflexivity].
    apply key_eqb_eq in E2. subst a.
    rewrite key_eqb_sym, E. reflexivity.
Qed.

Lemma get_app (k : key) (d d' : t) :
  get k (d ++ d')%list = match get k d with Some v => Some v | None => get k d' end.
Proof.
  induction d as [|[a w] d IH]; simpl; [reflexivity|].
  destruct (key_eqb a k); [reflexivity | exact IH].
Qed.

Lemma set_fresh (k : key) (v : json) (d : t) :
  ~ In k (keys d) -> set k v d = (d ++ [(k, v)])%list.
Proof.
  induction d as [|[a w] d IH]; simpl; intros H; [reflexivity|].
  destruct (key_eqb a k) eqn:E.
  - apply key_eqb_eq in E. tauto.
  - rewrite IH by tauto. reflexivity.
Qed.

Lemma filter_filter_comm {A : Type} (p q : A -> bool) (l : list A) :
  filter p (filter q l) = filter q (filter p l).
Proof.
  induction l as [|a l IH]; simpl; [reflexivity|].
  destruct (p a) eqn:P, (q a) eqn:Q; simpl; rewrite ?P, ?Q, IH; reflexivity.
Qed.

Lemma filter_absorb {A : Type} (p q : A -> bool) (l : list A) :
  (forall x, q x = true -> p x = true) ->
  filter q (filter p l) = filter q l.
Proof.
  intros H. induction l as [|a l IH]; simpl; [reflexivity|].
  destruct (p a) eqn:P; simpl.
  - now rewrite IH.
  - destruct (q a) eqn:Q; [|exact IH].
    apply H in Q. congruence.
Qed.

Lemma filter_andb {A : Type} (p q : A -> bool) (l : list A) :
  filter (fun x => p x && q x) l = filter q (filter p l).
Proof.
  induction l as [|a l IH]; simpl; [reflexivity|].
  destruct (p a); simpl; [destruct (q a)|]; now rewrite IH.
Qed.

(** Dropping repeats commutes with any selection of keys. *)
Lemma first_occurrences_filter (q : key -> bool) (ks : list key) :
  first_occurrences (filter q ks) = filter q (first_occurrences ks).
Proof.
  induction ks as [|a ks IH]; simpl; [reflexivity|].
  destruct (q a) eqn:Q; simpl.
  - rewrite IH. f_equal. apply filter_filter_comm.
  - rewrite IH. symmetry. apply filter_absorb.
    intros x Hx. destruct (key_eqb a x) eqn:E; [|reflexivity].
    apply key_eqb_eq in E. congruence.
Qed.

Lemma absent_snoc (ks : list key) (k x : key) :
  absent (ks ++ [k])%list x = absent ks x && negb (key_eqb k x).
Proof.
  unfold absent. rewrite existsb_app. simpl.
  rewrite orb_false_r, negb_orb. reflexivity.
Qed.

(** The keys after the loop: those already there, then the new ones in
    the order of their first bucket. *)
Lemma keys_fill (kvs : list (key * json)) (d : t) :
  keys (fill_entries kvs d)
  = (keys d ++ first_occurrences (filter (absent (keys d)) (map fst kvs)))%list.
Proof.
  revert d. induction kvs as [|[k v] kvs IH]; intros d; simpl.
  - now rewrite app_nil_r.
  - unfold fill_entries in *. simpl. rewrite IH, keys_set.
    destruct (absent (keys d) k) eqn:A; [|reflexivity].
    rewrite <- app_assoc. simpl. do 2 f_equal.
    rewrite <- first_occurrences_filter. f_equal.
    rewrite <- filter_andb. apply filter_ext. intros x. apply absent_snoc.
Qed.

Lemma NoDup_keys_set (k : key) (v : json) (d : t) :
  NoDup (keys d) -> NoDup (keys (set k v d)).
Proof.
  intros H. rewrite keys_set.
  destruct (absent (keys d) k) eqn:A; [|exact H].
  apply absent_In in A.
  apply NoDup_app; [exact H | repeat constructor; auto |].
  intros x Hx [<-|[]]. contradiction.
Qed.

Lemma NoDup_keys_fill (kvs : list (key * json)) (d : t) :
  NoDup (keys d) -> NoDup (keys (fill_entries kvs d)).
Proof.
  revert d. induction kvs as [|[k v] kvs IH]; intros d H; [exact H|].
  apply IH. now apply NoDup_keys_set.
Qed.

(** A key is bound to the count of its last bucket. *)
Lemma get_fill (k : key) (kvs : list (key * json)) (d : t) :
  get k (fill_entries kvs d)
  = match get k (rev kvs) with Some v => Some v | None => get k d end.
Proof.
  revert d. induction kvs as [|[k' v] kvs IH]; intros d; [reflexivity|].
  unfold fill_entries in *. simpl. rewrite IH, get_app, get_set. simpl.
  destruct (get k (rev kvs)); [reflexivity|].
  destruct (key_eqb k' k); reflexivity.
Qed.

(** Distinct bucket keys: the dictionary is the bucket list itself. *)
Lemma fill_distinct (kvs : list (key * json)) (d : t) :
  NoDup (keys d ++ map fst kvs)%list -> fill_entries kvs d = (d ++ kvs)%list.
Proof.
  revert d. induction kvs as [|[k v] kvs IH]; intros d H.
  - simpl. now rewrite app_nil_r.
  - unfold fill_entries in *. simpl in *.
    assert (~ In k (keys d)) as F.
    { apply NoDup_remove_2 in H. intros I. apply H. apply in_or_app. now left. }
    rewrite (set_fresh k v d F), IH.
    + rewrite <- app_assoc. reflexivity.
    + unfold keys in *. rewrite map_app. simpl.
      rewrite <- app_assoc. exact H.
Qed.

End DictFacts.

Lemma fill_histogram_entries
    (items : list json) (kvs : list (Dict.key * json)) (d : Dict.t) :
  Forall2 bucket_entry items kvs ->
  fill_histogram items d = Ok (fill_entries kvs d).
Proof.
  intros H. revert d.
  induction H as [|b kv items kvs [k [Hk [Hh Hv]]] _ IH]; intros d.
  - reflexivity.
  - simpl. rewrite Hk, Hv. simpl. rewrite Hh. simpl. apply IH.
Qed.

(** C9: when the search answers with a bucket list, the histogram maps
    each bucket key to its count: the keys are unique, they come in the
    order of the buckets (a key that the backend repeats stays at its first
    place with its last count), distinct bucket keys give the bucket list
    itself, and an empty bucket list gives the empty dictionary, not an
    exception. *)
Theorem obtain_matching_logs_histogram
    (es : elasticsearch) (index_name query_str : string)
    (date_range : string * string) (range_keyword field_main : string)
    (res : json) (items : list json) (kvs : list (Dict.key * json)) :
  search es index_name
         (obtain_matching_logs_body query_str date_range range_keyword field_main)
  = Ok res ->
  daily_buckets res = Ok (JList items) ->
  Forall2 bucket_entry items kvs ->
  exists histogram_data,
    snd (obtain_matching_logs es index_name query_str date_range
                              range_keyword field_main) = Ok histogram_data
    /\ NoDup (Dict.keys histogram_data)
    /\ Dict.keys histogram_data = first_occurrences (map fst kvs)
    /\ (forall k, Dict.get k histogram_data = Dict.get k (rev kvs))
    /\ (NoDup (map fst kvs) -> histogram_data = kvs)
    /\ (items = [] -> histogram_data = Dict.empty).
Proof.
  intros Hsearch Hbuckets Hentries.
  exists (fill_entries kvs Dict.empty).
  split.
  { unfold obtain_matching_logs, es_search, bind, emit, lift.
    rewrite Hsearch. simpl. unfold histogram_of_response.
    rewrite Hbuckets. simpl. now apply fill_histogram_entries. }
  split; [apply DictFacts.NoDup_keys_fill; constructor|].
  split.
  { rewrite DictFacts.keys_fill. simpl. f_equal.
    induction (map fst kvs) as [|k ks IH]; simpl; [reflexivity | now rewrite IH]. }
  split.
  { intros k. rewrite DictFacts.get_fill. simpl.
    destruct (Dict.get k (rev kvs)); reflexivity. }
  split.
  { intros H. now rewrite DictFacts.fill_distinct. }
  intros ->. inversion Hentries. reflexivity.
Qed.

Lemma obtain_matching_logs_histogram_witness :
  exists histogram_data,
    snd (obtain_matching_logs
           (sample_es [bucket "2024-01-01" 3; bucket "2024-01-02" 5] 45 300)
           "transcriptions_index" "refund and delay"
           ("2024-01-01", "2024-01-31") "called_at" "utterance")
    = Ok histogram_data
    /\ histogram_data
       = [(Dict.KStr "2024-01-01", JInt 3); (Dict.KStr "2024-01-02", JInt 5)].
Proof.
  destruct (obtain_matching_logs_histogram
              (sample_es [bucket "2024-01-01" 3; bucket "2024-01-02" 5] 45 300)
              "transcriptions_index" "refund and delay"
              ("2024-01-01", "2024-01-31") "called_at" "utterance"
              (histogram_response [bucket "2024-01-01" 3; bucket "2024-01-02" 5])
              [bucket "2024-01-01" 3; bucket "2024-01-02" 5]
              [(Dict.KStr "2024-01-01", JInt 3); (Dict.KStr "2024-01-02", JInt 5)])
    as [h [Hrun [_ [_ [_ [Hsame _]]]]]].
  - reflexivity.
  - reflexivity.
  - repeat constructor; eexists; (split; [reflexivity | split; reflexivity]).
  - exists h. split; [exact Hrun|]. apply Hsame.
    repeat constructor; simpl; intuition discriminate.
Defined.

(** ** Runs of the page *)

Module UiFacts.

Lemma bind_run {A B : Type} (c : ui A) (k : A -> ui B) :
  bind c k
  = ((fst c ++ match snd c with Ok a => fst (k a) | Raise _ => [] end)%list,
     match snd c with Ok a => snd (k a) | Raise e => Raise e end).
Proof.
  destruct c as [evs [a|e]]; simpl.
  - destruct (k a). reflexivity.
  - now rewrite app_nil_r.
Qed.

Lemma bind_lift_ok {A B : Type} (a : A) (k : A -> ui B) :
  bind (lift (Ok a)) k = k a.
Proof. unfold bind, lift. destruct (k a). reflexivity. Qed.

(** The first event of a computation is the first event of what it
    starts with. *)
Lemma hd_bind {A B : Type} (c : ui A) (k : A -> ui B) (ev : event) :
  hd_error (fst c) = Some ev -> hd_error (fst (bind c k)) = Some ev.
Proof.
  rewrite bind_run. simpl.
  destruct (fst c); simpl; [discriminate | trivial].
Qed.

Lemma quiet_lift {A : Type} (r : result A) : quiet (lift r).
Proof. intros index body []. Qed.

Lemma quiet_emit (ev : event) : is_search ev = false -> quiet (emit ev).
Proof. intros H index body [E|[]]. subst ev. discriminate. Qed.

Lemma quiet_bind {A B : Type} (c : ui A) (k : A -> ui B) :
  quiet c -> (forall a, quiet (k a)) -> quiet (bind c k).
Proof.
  intros Hc Hk index body. rewrite bind_run. simpl.
  intros H. apply in_app_or in H. destruct H as [H|H].
  - exact (Hc _ _ H).
  - destruct (snd c) as [a|e]; [exact (Hk a _ _ H) | destruct H].
Qed.

Lemma quiet_col2 (user_input : list string) (vars : locals) :
  quiet (generate_content_col2 user_input vars).
Proof.
  unfold generate_content_col2.
  repeat first
    [ apply quiet_lift
    | apply quiet_emit; reflexivity
    | apply quiet_bind; [|intros ?] ].
Qed.

End UiFacts.

(** A text without comma is a single term, and the page raises on the
    missing second term with no search issued, no chart and no line. *)
Lemma single_term_raises
    (st : streamlit) (es : elasticsearch) (input_keyword : string) :
  Str.contains ","
    (text_input st "Write a word or phrase, separate by comma:" input_keyword)
  = false ->
  generate_content st es input_keyword = ([], Raise IndexError).
Proof.
  intros H.
  unfold generate_content, generate_content_col1, get_user_input.
  rewrite (StrFacts.split_absent _ _ H). reflexivity.
Qed.

Lemma count_present (sep : ascii) (s : string) :
  Str.contains sep s = true -> (1 <= Str.count sep s)%nat.
Proof.
  induction s as [|c rest IH]; simpl; [discriminate|].
  destruct (Ascii.eqb c sep); simpl; [lia | exact IH].
Qed.

(** A text with a comma has at least two terms. *)
Lemma comma_gives_two_terms (st : streamlit) (key_input : string) :
  Str.contains ","
    (text_input st "Write a word or phrase, separate by comma:" key_input)
  = true ->
  exists first second rest,
    get_user_input st key_input = first :: second :: rest.
Proof.
  intros H. unfold get_user_input.
  pose proof (StrFacts.length_split
                ","
                (text_input st "Write a word or phrase, separate by comma:"
                            key_input)) as L.
  apply count_present in H.
  destruct (Str.split _ _) as [|a [|b pieces]]; simpl in L; try lia.
  simpl. eauto.
Qed.

(** C3 (as the script has it): the comma alone decides.  A text without
    comma, the empty and the blank text among them, gives a single term,
    and the page raises [IndexError] on the missing second term with no
    search issued, no chart drawn and no line written.  A text with a comma
    gives at least two terms and is never rejected, whatever the terms are
    and even when all are empty: the first search goes out with the query
    made of the first two terms. *)
Theorem comma_decides_rejection
    (st : streamlit) (es : elasticsearch) (input_keyword : string) :
  if Str.contains ","
       (text_input st "Write a word or phrase, separate by comma:" input_keyword)
  then
    exists first second rest,
      get_user_input st input_keyword = first :: second :: rest
      /\ hd_error (fst (generate_content st es input_keyword))
         = Some (EvSearch "transcriptions_index"
                   (obtain_matching_logs_body
                      (first ++ " and " ++ second)
                      (pick_date_range st input_keyword)
                      "called_at" "utterance"))
  else
    generate_content st es input_keyword = ([], Raise IndexError).
Proof.
  destruct (Str.contains _ _) eqn:C.
  - destruct (comma_gives_two_terms st input_keyword C)
      as [first [second [rest T]]].
    exists first, second, rest. split; [exact T|].
    unfold generate_content, generate_content_col1. rewrite T.
    change (format_query (first :: second :: rest))
      with (Ok (first ++ " and " ++ second)).
    rewrite UiFacts.bind_lift_ok.
    do 4 apply UiFacts.hd_bind. reflexivity.
  - now apply single_term_raises.
Qed.

(** C3, as stated, fails on [","]: both terms are empty, nothing is
    rejected, and the six searches go out with the query [" and "]. *)
Lemma empty_terms_are_searched :
  let st := sample_st (Date 2024 1 1) (Date 2024 1 31) "," in
  let run := generate_content st (sample_es [] 0 300) "one" in
  get_user_input st "one" = [""; ""]
  /\ hd_error (fst run)
     = Some (EvSearch "transcriptions_index"
               (obtain_matching_logs_body
                  " and " ("2024-01-01", "2024-01-31") "called_at" "utterance"))
  /\ List.length (filter is_search (fst run)) = 6%nat
  /\ snd run = Ok tt.
Proof.
  cbv zeta.
  split; [reflexivity|].
  split; [reflexivity|].
  split; vm_compute; reflexivity.
Qed.

Section Runs.

Variable st : streamlit.
Variable es : elasticsearch.

(** One step of the run: the response in hand is folded, or else the
    next search of the script is answered. *)
Ltac run_step :=
  match goal with
  | |- context [histogram_of_response ?res] =>
      destruct (histogram_of_response res)
  | |- context [cardinality_of_response ?res] =>
      destruct (cardinality_of_response res)
  | |- context [search es ?i (obtain_matching_logs_body ?q ?d "called_at" ?f)] =>
      destruct (search es i (obtain_matching_logs_body q d "called_at" f)) eqn:?
  | |- context [search es ?i (cardinality_matched_logs_body ?q ?d "called_at" ?f)] =>
      destruct (search es i (cardinality_matched_logs_body q d "called_at" f)) eqn:?
  | |- context [search es ?i (cardinality_all_logs_body ?q ?d "called_at" ?f)] =>
      destruct (search es i (cardinality_all_logs_body q d "called_at" f)) eqn:?
  | |- context [search es ?i (obtain_matching_logs_body ?q ?d "created_at" ?f)] =>
      destruct (search es i (obtain_matching_logs_body q d "created_at" f)) eqn:?
  | |- context [search es ?i (cardinality_matched_logs_body ?q ?d "created_at" ?f)] =>
      destruct (search es i (cardinality_matched_logs_body q d "created_at" f)) eqn:?
  | |- context [search es ?i (cardinality_all_logs_body ?q ?d "created_at" ?f)] =>
      destruct (search es i (cardinality_all_logs_body q d "created_at" f)) eqn:?
  | |- context [bar_chart st ?data "calls"] =>
      destruct (bar_chart st data "calls") as [[]|] eqn:?
  | |- context [bar_chart st ?data "emails"] =>
      destruct (bar_chart st data "emails") as [[]|] eqn:?
  end;
  cbn [bind lift emit ret fst snd app].

(** A run that has ended: the search that raised is the last one. *)
Ltac close_raised :=
  let HIn := fresh "HIn" in
  let Hraise := fresh "Hraise" in
  intros ? ? ? HIn Hraise; cbn [In] in HIn;
  repeat (destruct HIn as [HIn|HIn];
          [try discriminate HIn; injection HIn as <- <-; try congruence|]);
  try contradiction;
  try (split; [congruence | reflexivity]).

(** C5 (as the script has it): the six searches run in sequence with no
    handler.  A search that raises ends the run at once: the page raises
    that exception and has rendered nothing, no chart and no line, for
    either channel, whatever the other searches answered. *)
Theorem raised_search_ends_run (input_keyword : string) :
  forall index body e,
    In (EvSearch index body) (fst (generate_content st es input_keyword)) ->
    search es index body = Raise e ->
    snd (generate_content st es input_keyword) = Raise e
    /\ forallb is_search (fst (generate_content st es input_keyword)) = true.
Proof.
  unfold generate_content, generate_content_col1.
  destruct (get_user_input st input_keyword) as [|first [|second rest]].
  - cbn. intros index body e [].
  - cbn. intros index body e [].
  - unfold obtain_matching_logs, cardinality_matched_logs,
      cardinality_all_logs, es_search, generate_graphs.
    change (format_query (first :: second :: rest))
      with (Ok (first ++ " and " ++ second)).
    generalize (first ++ " and " ++ second) as query_str.
    generalize (pick_date_range st input_keyword) as dates.
    intros dates query_str.
    cbn [bind lift emit ret fst snd app].
    do 14 (run_step; [|solve [close_raised]]).
    match goal with
    | |- context [generate_content_col2 ?terms ?vars] =>
        pose proof (UiFacts.quiet_col2 terms vars) as Q;
        destruct (generate_content_col2 terms vars) as [evs r]
    end.
    cbn [fst snd app] in *.
    intros index body e HIn Hraise. exfalso.
    cbn [In] in HIn.
    repeat (destruct HIn as [HIn|HIn];
            [try discriminate HIn; injection HIn as <- <-; congruence|]).
    exact (Q _ _ HIn).
Qed.

(** C2 (as the script has it): the two dates are formatted and used as
    they come, with no comparison: whatever their order, with two terms
    in the text the first search goes out with [gte] the start date and
    [lt] the end date. *)
Theorem dates_are_not_validated
    (input_keyword first second : string) (rest : list string) :
  get_user_input st input_keyword = first :: second :: rest ->
  let date_start :=
    date_input st "Enter range start:" ("start" ++ input_keyword) in
  let date_end :=
    date_input st "Enter range end:" ("end" ++ input_keyword) in
  let body :=
    obtain_matching_logs_body (first ++ " and " ++ second)
      (isoformat date_start, isoformat date_end) "called_at" "utterance" in
  pick_date_range st input_keyword = (isoformat date_start, isoformat date_end)
  /\ hd_error (fst (generate_content st es input_keyword))
     = Some (EvSearch "transcriptions_index" body)
  /\ clauses body
     = Ok (JList [query_string_clause (first ++ " and " ++ second);
                  range_clause "called_at"
                    (isoformat date_start) (isoformat date_end)]).
Proof.
  intros Hterms. cbv zeta.
  split; [reflexivity|].
  split; [|reflexivity].
  unfold generate_content, generate_content_col1. rewrite Hterms.
  change (format_query (first :: second :: rest))
    with (Ok (first ++ " and " ++ second)).
  rewrite UiFacts.bind_lift_ok.
  do 4 apply UiFacts.hd_bind. reflexivity.
Qed.

(** C1 (as the script has it): on a zero total the percentage raises
    [ZeroDivisionError], and nothing catches it: when the first column
    ends with a total of 0 call logs, the page has drawn the charts and
    written the line of the call count, and then raises. *)
Theorem zero_total_raises
    (input_keyword first second : string) (rest : list string)
    (evs : list event) (vars : locals) (matched : Z) :
  generate_content_col1 st es input_keyword
  = (evs, Ok (first :: second :: rest, vars)) ->
  matching_call_logs vars = Some (JInt matched) ->
  all_call_logs vars = Some (JInt 0) ->
  percentage_of_total_logs (JInt matched) (JInt 0) = Raise ZeroDivisionError
  /\ generate_content st es input_keyword
     = ((evs ++ [EvWrite [ShownJson (JInt matched);
                          ShownStr "call logs containing keywords:";
                          ShownStr (quoted first); ShownStr "and";
                          ShownStr (quoted second)]])%list,
        Raise ZeroDivisionError).
Proof.
  intros Hcol1 Hmatched Htotal.
  split; [reflexivity|].
  unfold generate_content. rewrite Hcol1.
  unfold generate_content_col2. cbn [fst snd bind].
  rewrite Hmatched, Htotal. reflexivity.
Qed.

End Runs.

(** ** Concrete sessions *)

Lemma raised_search_ends_run_witness :
  snd (generate_content january timeout_es "one")
  = Raise (ElasticsearchException "ConnectionTimeout")
  /\ forallb is_search (fst (generate_content january timeout_es "one")) = true.
Proof.
  apply (raised_search_ends_run
           january timeout_es "one" "intercoms_index"
           (obtain_matching_logs_body
              "refund and delay" ("2024-01-01", "2024-01-31") "created_at" "body")).
  - vm_compute. right. right. right. left. reflexivity.
  - reflexivity.
Defined.

(** C5, as stated, fails: the three searches of the call channel succeed,
    the first search of the email channel times out, and the page raises
    with nothing rendered for the calls either. *)
Lemma calls_succeed_yet_nothing_reported :
  let run := generate_content january timeout_es "one" in
  let dates := ("2024-01-01", "2024-01-31") in
  search timeout_es "transcriptions_index"
         (obtain_matching_logs_body "refund and delay" dates "called_at" "utterance")
  = Ok (histogram_response two_days)
  /\ search timeout_es "transcriptions_index"
            (cardinality_matched_logs_body
               "refund and delay" dates "called_at" "utterance")
     = Ok (cardinality_response 45)
  /\ search timeout_es "transcriptions_index"
            (cardinality_all_logs_body
               "refund and delay" dates "called_at" "utterance")
     = Ok (cardinality_response 300)
  /\ snd run = Raise (ElasticsearchException "ConnectionTimeout")
  /\ List.length (fst run) = 4%nat
  /\ filter (fun ev => negb (is_search ev)) (fst run) = [].
Proof.
  cbv zeta.
  split; [reflexivity|].
  split; [reflexivity|].
  split; [reflexivity|].
  split; [reflexivity|].
  split; reflexivity.
Qed.

Lemma dates_are_not_validated_witness :
  date_ltb (Date 2024 1 1) (Date 2024 2 1) = true
  /\ hd_error (fst (generate_content reversed (sample_es two_days 45 300) "one"))
     = Some (EvSearch "transcriptions_index"
               (obtain_matching_logs_body
                  "refund and delay" ("2024-02-01", "2024-01-01")
                  "called_at" "utterance")).
Proof.
  split; [reflexivity|].
  apply (dates_are_not_validated
           reversed (sample_es two_days 45 300) "one" "refund" "delay" []).
  reflexivity.
Defined.

(** C2, as stated, fails: with the start on 2024-02-01 and the end on
    2024-01-01 nothing is rejected, the six searches go out with the bounds
    in that order and the page completes. *)
Lemma reversed_dates_are_searched :
  let run := generate_content reversed (sample_es two_days 45 300) "one" in
  date_ltb (Date 2024 1 1) (Date 2024 2 1) = true
  /\ pick_date_range reversed "one" = ("2024-02-01", "2024-01-01")
  /\ List.length (filter is_search (fst run)) = 6%nat
  /\ snd run = Ok tt.
Proof.
  cbv zeta.
  split; [reflexivity|].
  split; [reflexivity|].
  split; vm_compute; reflexivity.
Qed.

Lemma zero_total_raises_witness :
  snd (generate_content january (sample_es [] 0 0) "one")
  = Raise ZeroDivisionError.
Proof.
  destruct (zero_total_raises
              january (sample_es [] 0 0) "one" "refund" "delay" []
              (fst (generate_content_col1 january (sample_es [] 0 0) "one"))
              {| matching_call_logs := Some (JInt 0);
                 all_call_logs := Some (JInt 0);
                 matching_email_logs := Some (JInt 0);
                 all_email_logs := Some (JInt 0) |}
              0) as [_ Hrun].
  - vm_compute. reflexivity.
  - reflexivity.
  - reflexivity.
  - rewrite Hrun. reflexivity.
Defined.

(** C1, as stated, fails: with no call log in the range the total is 0,
    no fallback is rendered and the page ends on [ZeroDivisionError]. *)
Lemma zero_total_is_not_caught :
  let es := sample_es [] 0 0 in
  let run := generate_content january es "one" in
  snd (cardinality_all_logs es "transcriptions_index" "refund and delay"
         ("2024-01-01", "2024-01-31") "called_at" "utterance")
  = Ok (JInt 0)
  /\ snd run = Raise ZeroDivisionError
  /\ filter (fun ev => negb (is_search ev)) (fst run)
     = [EvBarChart [] "calls"; EvBarChart [] "emails";
        EvWrite [ShownJson (JInt 0); ShownStr "call logs containing keywords:";
                 ShownStr "'refund'"; ShownStr "and"; ShownStr "'delay'"]].
Proof.
  cbv zeta.
  split; [reflexivity|].
  split; vm_compute; reflexivity.
Qed.

(** * Further properties *)

(** ** Which exceptions the percentage raises *)

Module PercentFacts.

Lemma checked_raise (x : Float.float) (e : exn) :
  Float.checked x = Raise e -> e = OverflowError.
Proof. destruct x; simpl; congruence. Qed.

Lemma round2_raise (x : Float.float) (e : exn) :
  Float.round2 x = Raise e -> e = OverflowError.
Proof.
  destruct x as [s|s| |s m ex]; simpl; try congruence.
  destruct (Float.hundredths m ex); try congruence.
  apply checked_raise.
Qed.

Lemma int_truediv_raise (a b : Z) (e : exn) :
  Float.int_truediv a b = Raise e ->
  (e = ZeroDivisionError /\ b = 0) \/ (e = OverflowError /\ b <> 0).
Proof.
  unfold Float.int_truediv. destruct (Z.eqb_spec b 0) as [->|NZ].
  - intros [= <-]. now left.
  - intros H. apply checked_raise in H. now right.
Qed.

Lemma percentage_raise (p t : Z) (e : exn) :
  percentage_of_total_logs (JInt p) (JInt t) = Raise e ->
  (e = ZeroDivisionError /\ t = 0) \/ (e = OverflowError /\ t <> 0).
Proof.
  unfold percentage_of_total_logs, rbind.
  destruct (Float.int_truediv p t) as [ratio|e'] eqn:D.
  - intros H. apply round2_raise in H. right. split; [exact H|].
    intros ->. unfold Float.int_truediv in D. discriminate D.
  - intros [= <-]. now apply (int_truediv_raise p t).
Qed.

Lemma percentage_raise_any (partial total : json) (e : exn) :
  percentage_of_total_logs partial total = Raise e ->
  e = TypeError \/ e = ZeroDivisionError \/ e = OverflowError.
Proof.
  destruct partial as [| p | | |], total as [| t | | |];
    try (intros [= <-]; now left).
  intros H. apply percentage_raise in H.
  destruct H as [[-> _]|[-> _]]; auto.
Qed.

End PercentFacts.

(** X1: on two integers the percentage raises [ZeroDivisionError]
    exactly when the total is 0 and never [TypeError], any other failure
    being an [OverflowError]; with a string, null, an array or an object in
    either place it raises [TypeError]. *)
Theorem percentage_of_total_logs_errors
    (partial total : Z) (other value : json) :
  (percentage_of_total_logs (JInt partial) (JInt total) = Raise ZeroDivisionError
   <-> total = 0)
  /\ percentage_of_total_logs (JInt partial) (JInt total) <> Raise TypeError
  /\ (forall e,
         percentage_of_total_logs (JInt partial) (JInt total) = Raise e ->
         e = ZeroDivisionError \/ e = OverflowError)
  /\ (is_int other = false ->
      percentage_of_total_logs other value = Raise TypeError
      /\ percentage_of_total_logs value other = Raise TypeError).
Proof.
  split; [|split; [|split]].
  - split.
    + intros H. apply PercentFacts.percentage_raise in H.
      destruct H as [[_ H]|[H _]]; [exact H | discriminate H].
    + intros ->. reflexivity.
  - intros H. apply PercentFacts.percentage_raise in H.
    destruct H as [[H _]|[H _]]; discriminate H.
  - intros e H. apply PercentFacts.percentage_raise in H.
    destruct H as [[-> _]|[-> _]]; auto.
  - intros H. destruct other; try discriminate H;
      (split; [reflexivity | destruct value; reflexivity]).
Qed.

(** ** Order and outcome of the runs *)

Section Plan.

Variable st : streamlit.
Variable es : elasticsearch.

Ltac plan_step :=
  match goal with
  | |- context [histogram_of_response ?res] =>
      destruct (histogram_of_response res) eqn:?
  | |- context [cardinality_of_response ?res] =>
      destruct (cardinality_of_response res) eqn:?
  | |- context [search es ?i (obtain_matching_logs_body ?q ?d "called_at" ?f)] =>
      destruct (search es i (obtain_matching_logs_body q d "called_at" f)) eqn:?
  | |- context [search es ?i (cardinality_matched_logs_body ?q ?d "called_at" ?f)] =>
      destruct (search es i (cardinality_matched_logs_body q d "called_at" f)) eqn:?
  | |- context [search es ?i (cardinality_all_logs_body ?q ?d "called_at" ?f)] =>
      destruct (search es i (cardinality_all_logs_body q d "called_at" f)) eqn:?
  | |- context [search es ?i (obtain_matching_logs_body ?q ?d "created_at" ?f)] =>
      destruct (search es i (obtain_matching_logs_body q d "created_at" f)) eqn:?
  | |- context [search es ?i (cardinality_matched_logs_body ?q ?d "created_at" ?f)] =>
      destruct (search es i (cardinality_matched_logs_body q d "created_at" f)) eqn:?
  | |- context [search es ?i (cardinality_all_logs_body ?q ?d "created_at" ?f)] =>
      destruct (search es i (cardinality_all_logs_body q d "created_at" f)) eqn:?
  | |- context [bar_chart st ?data "calls"] =>
      destruct (bar_chart st data "calls") as [[]|] eqn:?
  | |- context [bar_chart st ?data "emails"] =>
      destruct (bar_chart st data "emails") as [[]|] eqn:?
  end;
  cbn [bind lift emit ret fst snd app].

Lemma quiet_rendering {A : Type} (c : ui A) :
  quiet c -> forallb rendering (fst c) = true.
Proof.
  unfold quiet. intros Q. apply forallb_forall. intros [index body| |] HIn.
  - exfalso. exact (Q _ _ HIn).
  - reflexivity.
  - reflexivity.
Qed.

(** X2: with fewer than two terms the page raises at once, with no
    search issued, no chart drawn and no line written.  Otherwise the
    searches of the run are the first [n] of the six planned ones, in the
    order of the script, all with the one query string and the one pair of
    dates; charts and lines come after them, and only when all six were
    issued. *)
Theorem searches_follow_plan (input_keyword : string) :
  match format_query (get_user_input st input_keyword) with
  | Raise e => generate_content st es input_keyword = ([], Raise e)
  | Ok query_str =>
      exists (n : nat) (rendered : list event),
        fst (generate_content st es input_keyword)
        = (firstn n (planned_searches query_str
                                      (pick_date_range st input_keyword))
           ++ rendered)%list
        /\ (n <= 6)%nat
        /\ forallb rendering rendered = true
        /\ (rendered <> [] -> n = 6%nat)
  end.
Proof.
  unfold generate_content, generate_content_col1.
  destruct (get_user_input st input_keyword) as [|first [|second rest]] eqn:T.
  - exfalso. unfold get_user_input in T.
    apply map_eq_nil in T. exact (StrFacts.split_not_nil _ _ T).
  - reflexivity.
  - unfold obtain_matching_logs, cardinality_matched_logs,
      cardinality_all_logs, es_search, generate_graphs.
    change (format_query (first :: second :: rest))
      with (Ok (first ++ " and " ++ second)).
    unfold planned_searches.
    generalize (first ++ " and " ++ second) as query_str.
    generalize (pick_date_range st input_keyword) as dates.
    intros dates query_str.
    cbn [bind lift emit ret fst snd app].
    plan_step; [|exists 1%nat, []; repeat split; try lia; intros H; now contradiction H].
    plan_step; [|exists 1%nat, []; repeat split; try lia; intros H; now contradiction H].
    plan_step; [|exists 2%nat, []; repeat split; try lia; intros H; now contradiction H].
    plan_step; [|exists 2%nat, []; repeat split; try lia; intros H; now contradiction H].
    plan_step; [|exists 3%nat, []; repeat split; try lia; intros H; now contradiction H].
    plan_step; [|exists 3%nat, []; repeat split; try lia; intros H; now contradiction H].
    plan_step; [|exists 4%nat, []; repeat split; try lia; intros H; now contradiction H].
    plan_step; [|exists 4%nat, []; repeat split; try lia; intros H; now contradiction H].
    plan_step; [|exists 5%nat, []; repeat split; try lia; intros H; now contradiction H].
    plan_step; [|exists 5%nat, []; repeat split; try lia; intros H; now contradiction H].
    plan_step; [|exists 6%nat, []; repeat split; try lia; intros H; now contradiction H].
    plan_step; [|exists 6%nat, []; repeat split; try lia; intros H; now contradiction H].
    plan_step; [|exists 6%nat, []; repeat split; try lia; intros H; now contradiction H].
    plan_step;
      [|match goal with
        | |- context [EvBarChart ?h1 "calls"] =>
            exists 6%nat, [EvBarChart h1 "calls"]
        end; repeat split; lia].
    match goal with
    | |- context [generate_content_col2 ?terms ?vars] =>
        pose proof (quiet_rendering _ (UiFacts.quiet_col2 terms vars)) as Q;
        destruct (generate_content_col2 terms vars) as [evs r]
    end.
    cbn [fst snd app] in *.
    match goal with
    | |- context [EvBarChart ?h1 "calls" :: EvBarChart ?h2 "emails" :: evs] =>
        exists 6%nat, (EvBarChart h1 "calls" :: EvBarChart h2 "emails" :: evs)
    end.
    split; [reflexivity|]. split; [lia|]. split; [exact Q | reflexivity].
Qed.

(** X3: the guard [if user_input:] never fails, since a split has at least
    one piece; so when the first column completes there are at least two
    terms, the four counts are assigned, the six searches were issued and
    the two charts drawn, and the second column raises neither
    [UnboundLocalError] nor [IndexError]. *)
Theorem first_column_assigns_all
    (input_keyword : string) (evs : list event)
    (terms : list string) (vars : locals) :
  generate_content_col1 st es input_keyword = (evs, Ok (terms, vars)) ->
  (exists first second rest matching_calls all_calls matching_emails all_emails
          histogram histogram2,
      terms = first :: second :: rest
      /\ vars = {| matching_call_logs := Some matching_calls;
                   all_call_logs := Some all_calls;
                   matching_email_logs := Some matching_emails;
                   all_email_logs := Some all_emails |}
      /\ evs = (planned_searches (first ++ " and " ++ second)
                                 (pick_date_range st input_keyword)
                ++ [EvBarChart histogram "calls";
                    EvBarChart histogram2 "emails"])%list)
  /\ (forall name, snd (generate_content_col2 terms vars)
                   <> Raise (UnboundLocalError name))
  /\ snd (generate_content_col2 terms vars) <> Raise IndexError.
Proof.
  unfold generate_content_col1.
  destruct (get_user_input st input_keyword) as [|first [|second rest]] eqn:T.
  - exfalso. unfold get_user_input in T.
    apply map_eq_nil in T. exact (StrFacts.split_not_nil _ _ T).
  - cbn. discriminate.
  - unfold obtain_matching_logs, cardinality_matched_logs,
      cardinality_all_logs, es_search, generate_graphs.
    change (format_query (first :: second :: rest))
      with (Ok (first ++ " and " ++ second)).
    unfold planned_searches.
    remember (first ++ " and " ++ second) as query_str eqn:Q.
    generalize (pick_date_range st input_keyword) as dates.
    intros dates.
    cbn [bind lift emit ret fst snd app].
    do 14 (plan_step; [|discriminate]).
    intros [= <- <- <-].
    split.
    { do 9 eexists. split; [reflexivity|]. split; [reflexivity|].
      subst query_str. reflexivity. }
    unfold generate_content_col2.
    cbn [bind lift emit ret fst snd app local list_index nth_error
           matching_call_logs all_call_logs matching_email_logs all_email_logs].
    split; [intros name|];
      repeat match goal with
        | |- context [percentage_of_total_logs ?a ?b] =>
            let E := fresh "E" in
            destruct (percentage_of_total_logs a b) eqn:E;
            [|apply PercentFacts.percentage_raise_any in E];
            cbn [bind lift emit ret fst snd app]
        end;
      intuition congruence.
Qed.

(** X4: when the six searches answer, the two histograms and the four
    counts are read, the chart library draws both histograms and both
    percentages are defined, the page issues the six planned searches,
    draws the chart of the calls and the chart of the emails, writes the
    count and the percentage of the calls, then those of the emails, each
    count line quoting the first two terms, and completes. *)
Theorem complete_run
    (input_keyword first second : string) (rest : list string)
    (res1 res2 res3 res4 res5 res6 : json) (histogram histogram2 : Dict.t)
    (matching_calls all_calls matching_emails all_emails : json)
    (percent percent2 : Float.float) :
  let query_str := first ++ " and " ++ second in
  let dates := pick_date_range st input_keyword in
  get_user_input st input_keyword = first :: second :: rest ->
  search es "transcriptions_index"
    (obtain_matching_logs_body query_str dates "called_at" "utterance") = Ok res1 ->
  histogram_of_response res1 = Ok histogram ->
  search es "transcriptions_index"
    (cardinality_matched_logs_body query_str dates "called_at" "utterance")
  = Ok res2 ->
  cardinality_of_response res2 = Ok matching_calls ->
  search es "transcriptions_index"
    (cardinality_all_logs_body query_str dates "called_at" "utterance") = Ok res3 ->
  cardinality_of_response res3 = Ok all_calls ->
  search es "intercoms_index"
    (obtain_matching_logs_body query_str dates "created_at" "body") = Ok res4 ->
  histogram_of_response res4 = Ok histogram2 ->
  search es "intercoms_index"
    (cardinality_matched_logs_body query_str dates "created_at" "body") = Ok res5 ->
  cardinality_of_response res5 = Ok matching_emails ->
  search es "intercoms_index"
    (cardinality_all_logs_body query_str dates "created_at" "body") = Ok res6 ->
  cardinality_of_response res6 = Ok all_emails ->
  bar_chart st histogram "calls" = Ok tt ->
  bar_chart st histogram2 "emails" = Ok tt ->
  percentage_of_total_logs matching_calls all_calls = Ok percent ->
  percentage_of_total_logs matching_emails all_emails = Ok percent2 ->
  generate_content st es input_keyword
  = ((planned_searches query_str dates
      ++ [EvBarChart histogram "calls";
          EvBarChart histogram2 "emails";
          count_line matching_calls "call logs containing keywords:" first second;
          percent_line percent "percent of all call logs";
          count_line matching_emails "email logs containing keywords:" first second;
          percent_line percent2 "percent of all email logs"])%list,
     Ok tt).
Proof.
  cbv zeta.
  intros T S1 H1 S2 C2 S3 C3 S4 H4 S5 C5 S6 C6 G1 G2 P1 P2.
  unfold generate_content, generate_content_col1. rewrite T.
  change (format_query (first :: second :: rest))
    with (Ok (first ++ " and " ++ second)).
  unfold obtain_matching_logs, cardinality_matched_logs,
    cardinality_all_logs, es_search, generate_graphs, generate_content_col2.
  cbn [bind lift emit ret fst snd app].
  rewrite S1. cbn [bind lift emit ret fst snd app]. rewrite H1.
  rewrite S2. cbn [bind lift emit ret fst snd app]. rewrite C2.
  rewrite S3. cbn [bind lift emit ret fst snd app]. rewrite C3.
  rewrite S4. cbn [bind lift emit ret fst snd app]. rewrite H4.
  rewrite S5. cbn [bind lift emit ret fst snd app]. rewrite C5.
  rewrite S6. cbn [bind lift emit ret fst snd app]. rewrite C6.
  cbn [bind lift emit ret fst snd app]. rewrite G1.
  cbn [bind lift emit ret fst snd app]. rewrite G2.
  cbn [bind lift emit ret fst snd app local list_index nth_error
         matching_call_logs all_call_logs matching_email_logs all_email_logs].
  rewrite P1. cbn [bind lift emit ret fst snd app]. rewrite P2.
  reflexivity.
Qed.

(** X5: the two channels are not treated alike on a zero total.  When
    everything is read and only the percentage of the emails fails, the
    page has drawn both charts and written the count and the percentage of
    the calls and the count of the emails before it raises. *)
Theorem email_percentage_fails_last
    (input_keyword first second : string) (rest : list string)
    (evs : list event)
    (matching_calls all_calls matching_emails all_emails : json)
    (percent : Float.float) (e : exn) :
  generate_content_col1 st es input_keyword
  = (evs, Ok (first :: second :: rest,
              {| matching_call_logs := Some matching_calls;
                 all_call_logs := Some all_calls;
                 matching_email_logs := Some matching_emails;
                 all_email_logs := Some all_emails |})) ->
  percentage_of_total_logs matching_calls all_calls = Ok percent ->
  percentage_of_total_logs matching_emails all_emails = Raise e ->
  generate_content st es input_keyword
  = ((evs
      ++ [count_line matching_calls "call logs containing keywords:" first second;
          percent_line percent "percent of all call logs";
          count_line matching_emails "email logs containing keywords:"
                     first second])%list,
     Raise e).
Proof.
  intros Hcol1 P1 P2.
  unfold generate_content. rewrite Hcol1.
  unfold generate_content_col2.
  cbn [bind lift emit ret fst snd app local list_index nth_error
         matching_call_logs all_call_logs matching_email_logs all_email_logs].
  rewrite P1. cbn [bind lift emit ret fst snd app]. rewrite P2.
  reflexivity.
Qed.

End Plan.

(** ** Date bounds *)

Module IsoFacts.

Lemma padded4_all : forallb padded4 (seq 0 (Z.to_nat 10000)) = true.
Proof. vm_compute. reflexivity. Qed.

Lemma padded2_all : forallb padded2 (seq 0 (Z.to_nat 100)) = true.
Proof. vm_compute. reflexivity. Qed.

Lemma zfill4 (n : nat) :
  Z.of_nat n < 10000 ->
  exists a b c d,
    Str.zfill 4 n = String a (String b (String c (String d EmptyString)))
    /\ forallb is_digit [a; b; c; d] = true
    /\ (1000 * digit_value a + 100 * digit_value b
        + 10 * digit_value c + digit_value d = n)%nat.
Proof.
  intros H.
  pose proof (proj1 (forallb_forall padded4 (seq 0 (Z.to_nat 10000))) padded4_all n) as C.
  assert (In n (seq 0 (Z.to_nat 10000))) as I by (apply in_seq; lia).
  specialize (C I). unfold padded4 in C.
  destruct (Str.zfill 4 n) as [|a [|b [|c [|d [|]]]]]; try discriminate C.
  apply andb_prop in C. destruct C as [D V].
  apply Nat.eqb_eq in V. exists a, b, c, d. auto.
Qed.

Lemma zfill2 (n : nat) :
  Z.of_nat n < 100 ->
  exists a b,
    Str.zfill 2 n = String a (String b EmptyString)
    /\ forallb is_digit [a; b] = true
    /\ (10 * digit_value a + digit_value b = n)%nat.
Proof.
  intros H.
  pose proof (proj1 (forallb_forall padded2 (seq 0 (Z.to_nat 100))) padded2_all n) as C.
  assert (In n (seq 0 (Z.to_nat 100))) as I by (apply in_seq; lia).
  specialize (C I). unfold padded2 in C.
  destruct (Str.zfill 2 n) as [|a [|b [|]]]; try discriminate C.
  apply andb_prop in C. destruct C as [D V].
  apply Nat.eqb_eq in V. exists a, b. auto.
Qed.

Lemma parse_isoformat (d : date) :
  valid_date d -> parse_iso (isoformat d) = Some d.
Proof.
  destruct d as [y m dd]. unfold valid_date, isoformat. simpl.
  intros [Hy [Hm Hd]].
  destruct (zfill4 y) as [y1 [y2 [y3 [y4 [Ey [Dy Vy]]]]]]; [lia|].
  destruct (zfill2 m) as [m1 [m2 [Em [Dm Vm]]]]; [lia|].
  destruct (zfill2 dd) as [d1 [d2 [Ed [Dd Vd]]]]; [lia|].
  rewrite Ey, Em, Ed. cbn [append parse_iso].
  simpl in Dy, Dm, Dd.
  repeat match goal with
         | H : _ && _ = true |- _ => apply andb_prop in H; destruct H
         end.
  cbn [forallb].
  repeat match goal with
         | H : is_digit _ = true |- _ => rewrite H; clear H
         end.
  cbn [andb Ascii.eqb Bool.eqb]. rewrite Vy, Vm, Vd. reflexivity.
Qed.

End IsoFacts.

(** X6: whatever valid dates the two widgets return, each bound of
    [pick_date_range] is a text of the shape [YYYY-MM-DD] that reads back
    as the date it was made from; so the pair of bounds determines the two
    dates. *)
Theorem pick_date_range_reads_back
    (st st' : streamlit) (index_key : string) :
  let date_start := date_input st "Enter range start:" ("start" ++ index_key) in
  let date_end := date_input st "Enter range end:" ("end" ++ index_key) in
  let date_start' := date_input st' "Enter range start:" ("start" ++ index_key) in
  let date_end' := date_input st' "Enter range end:" ("end" ++ index_key) in
  valid_date date_start -> valid_date date_end ->
  parse_iso (fst (pick_date_range st index_key)) = Some date_start
  /\ parse_iso (snd (pick_date_range st index_key)) = Some date_end
  /\ (valid_date date_start' -> valid_date date_end' ->
      pick_date_range st' index_key = pick_date_range st index_key ->
      date_start' = date_start /\ date_end' = date_end).
Proof.
  cbv zeta. intros Vs Ve. unfold pick_date_range. cbn [fst snd].
  split; [now apply IsoFacts.parse_isoformat|].
  split; [now apply IsoFacts.parse_isoformat|].
  intros Vs' Ve' [= Es Ee].
  apply (f_equal parse_iso) in Es, Ee.
  rewrite !IsoFacts.parse_isoformat in Es, Ee by assumption.
  injection Es as Es. injection Ee as Ee. split; [exact Es | exact Ee].
Qed.

Lemma pick_date_range_reads_back_witness :
  parse_iso (fst (pick_date_range reversed "one")) = Some (Date 2024 2 1)
  /\ parse_iso (snd (pick_date_range reversed "one")) = Some (Date 2024 1 1).
Proof.
  destruct (pick_date_range_reads_back reversed january "one") as [Hs [He _]].
  - unfold valid_date. simpl. lia.
  - unfold valid_date. simpl. lia.
  - split; [exact Hs | exact He].
Defined.

(** ** Terms and malformed buckets *)

Module TermFacts.
Import Str.

Lemma contains_app (c : ascii) (a b : string) :
  contains c (a ++ b) = contains c a || contains c b.
Proof.
  induction a as [|d a IH]; simpl; [reflexivity|].
  rewrite IH. apply orb_assoc.
Qed.

Lemma contains_strip (c : ascii) (s : string) :
  contains c s = false -> contains c (strip s) = false.
Proof.
  destruct (StrFacts.strip_decompose s) as [lead [trail [E _]]].
  intros H. rewrite E in H. rewrite !contains_app in H.
  apply orb_false_elim in H. destruct H as [_ H].
  apply orb_false_elim in H. tauto.
Qed.

Lemma lstrip_fixed (t : string) :
  (forall c, first t = Some c -> isspace c = false) -> lstrip t = t.
Proof.
  destruct t as [|d rest]; simpl; [reflexivity|].
  intros H. now rewrite (H d eq_refl).
Qed.

Lemma rstrip_fixed (t : string) :
  (forall c, last t = Some c -> isspace c = false) -> rstrip t = t.
Proof.
  induction t as [|d rest IH]; [reflexivity|].
  intros H. destruct rest as [|d' rest'].
  - simpl. now rewrite (H d eq_refl).
  - change (rstrip (String d (String d' rest')))
      with (match rstrip (String d' rest') with
            | EmptyString =>
                if isspace d then EmptyString else String d EmptyString
            | kept => String d kept
            end).
    rewrite IH; [reflexivity|]. intros c L. apply H. exact L.
Qed.

(** Stripping twice is stripping once. *)
Lemma strip_strip (s : string) : strip (strip s) = strip s.
Proof.
  unfold strip at 1. rewrite lstrip_fixed.
  - apply rstrip_fixed. intros c L. apply (StrFacts.strip_ends s). now right.
  - intros c F. apply (StrFacts.strip_ends s). now left.
Qed.

End TermFacts.

(** X7: a term of the keyword input holds no comma and no white space at
    either end, so the term typed in alone is read as that one term. *)
Theorem terms_parse_to_themselves
    (st : streamlit) (key_input term : string) :
  In term (get_user_input st key_input) ->
  Str.contains "," term = false
  /\ Str.strip term = term
  /\ map Str.strip (Str.split "," term) = [term].
Proof.
  unfold get_user_input. intros H.
  apply in_map_iff in H. destruct H as [piece [<- HIn]].
  pose proof (StrFacts.split_pieces_clean
                ","
                (text_input st "Write a word or phrase, separate by comma:"
                            key_input)) as Clean.
  rewrite Forall_forall in Clean. specialize (Clean piece HIn).
  assert (Str.contains "," (Str.strip piece) = false) as C
      by now apply TermFacts.contains_strip.
  split; [exact C|].
  split; [apply TermFacts.strip_strip|].
  rewrite (StrFacts.split_absent _ _ C). simpl.
  now rewrite TermFacts.strip_strip.
Qed.

Lemma terms_parse_to_themselves_witness :
  Str.contains "," "delay" = false
  /\ Str.strip "delay" = "delay"
  /\ map Str.strip (Str.split "," "delay") = ["delay"].
Proof.
  apply (terms_parse_to_themselves january "one" "delay").
  simpl. right. left. reflexivity.
Defined.

(** X8: a bucket that has a count but no [key_as_string] makes the whole
    histogram call raise [KeyError], whatever the buckets before and after
    it: no partial histogram is returned. *)
Theorem bucket_without_key_raises
    (es : elasticsearch) (index_name query_str : string)
    (date_range : string * string) (range_keyword field_main : string)
    (res : json) (before after : list json) (kvs : list (Dict.key * json))
    (fields : list (string * json)) (count : json) :
  search es index_name
         (obtain_matching_logs_body query_str date_range range_keyword field_main)
  = Ok res ->
  daily_buckets res = Ok (JList (before ++ JObj fields :: after)%list) ->
  Forall2 bucket_entry before kvs ->
  assoc "doc_count" fields = Some count ->
  assoc "key_as_string" fields = None ->
  obtain_matching_logs es index_name query_str date_range range_keyword field_main
  = ([EvSearch index_name
        (obtain_matching_logs_body query_str date_range range_keyword field_main)],
     Raise (KeyError "key_as_string")).
Proof.
  intros Hsearch Hbuckets Hbefore Hcount Hkey.
  unfold obtain_matching_logs, es_search, bind, emit, lift.
  rewrite Hsearch. simpl. unfold histogram_of_response.
  rewrite Hbuckets. simpl. f_equal. clear Hsearch Hbuckets.
  generalize Dict.empty as d. revert Hbefore. revert kvs.
  induction before as [|b before IH]; intros kvs Hbefore d.
  - simpl. now rewrite Hcount, Hkey.
  - inversion Hbefore as [|? kv ? kvs' [k [Hk [Hh Hv]]] Hrest]; subst.
    simpl. rewrite Hk, Hv. simpl. rewrite Hh. simpl. now apply (IH kvs').
Qed.

Lemma bucket_without_key_raises_witness :
  snd (obtain_matching_logs
         (sample_es [bucket "2024-01-01" 3; JObj [("doc_count", JInt 5)]] 45 300)
         "transcriptions_index" "refund and delay"
         ("2024-01-01", "2024-01-31") "called_at" "utterance")
  = Raise (KeyError "key_as_string").
Proof.
  rewrite (bucket_without_key_raises
             (sample_es [bucket "2024-01-01" 3; JObj [("doc_count", JInt 5)]] 45 300)
             "transcriptions_index" "refund and delay"
             ("2024-01-01", "2024-01-31") "called_at" "utterance"
             (histogram_response
                [bucket "2024-01-01" 3; JObj [("doc_count", JInt 5)]])
             [bucket "2024-01-01" 3] []
             [(Dict.KStr "2024-01-01", JInt 3)]
             [("doc_count", JInt 5)] (JInt 5)).
  - reflexivity.
  - reflexivity.
  - reflexivity.
  - repeat constructor. eexists. split; [reflexivity | split; reflexivity].
  - reflexivity.
  - reflexivity.
Defined.

(** ** The range of the percentage *)

Module RoundFacts.

Lemma digits_bounds (p : positive) :
  2 ^ (Zpos (digits2_pos p) - 1) <= Zpos p < 2 ^ Zpos (digits2_pos p).
Proof.
  induction p as [p IH|p IH|]; cbn [digits2_pos].
  - rewrite Pos2Z.inj_succ, Z.pow_succ_r by lia.
    replace (Z.succ (Zpos (digits2_pos p)) - 1) with (Z.succ (Zpos (digits2_pos p) - 1)) by lia.
    rewrite Z.pow_succ_r by lia. lia.
  - rewrite Pos2Z.inj_succ, Z.pow_succ_r by lia.
    replace (Z.succ (Zpos (digits2_pos p)) - 1) with (Z.succ (Zpos (digits2_pos p) - 1)) by lia.
    rewrite Z.pow_succ_r by lia. lia.
  - simpl. lia.
Qed.

(** A number below [2 ^ k] has at most [k] binary digits. *)
Lemma digits_le (m k : Z) : 0 <= m -> 0 <= k -> m < 2 ^ k -> Zdigits2 m <= k.
Proof.
  intros Hm Hk H. destruct m as [|p|p]; simpl; try lia.
  pose proof (digits_bounds p) as [L _].
  destruct (Z_lt_le_dec k (Zpos (digits2_pos p))) as [G|G]; [|exact G].
  exfalso.
  assert (2 ^ k <= 2 ^ (Zpos (digits2_pos p) - 1)) by (apply Z.pow_le_mono_r; lia).
  lia.
Qed.

Lemma shr_1_m (mrs : shr_record) :
  0 <= shr_m mrs -> shr_m (shr_1 mrs) = shr_m mrs / 2.
Proof.
  destruct mrs as [m r s]. cbn [shr_m].
  destruct m as [|[p|p|]|p]; intros H; cbn [shr_1 shr_m]; try lia;
    try reflexivity.
  - rewrite Pos2Z.inj_xI. apply Z.div_unique with 1; lia.
  - rewrite Pos2Z.inj_xO. apply Z.div_unique with 0; lia.
Qed.

Lemma shr_1_nonneg (mrs : shr_record) : 0 <= shr_m mrs -> 0 <= shr_m (shr_1 mrs).
Proof. intros H. rewrite shr_1_m by exact H. apply Z.div_pos; lia. Qed.

Lemma iter_shr_m (n : positive) (mrs : shr_record) :
  0 <= shr_m mrs ->
  shr_m (iter_pos shr_1 n mrs) = shr_m mrs / 2 ^ Zpos n.
Proof.
  revert mrs. induction n as [n IH|n IH|]; intros mrs H; cbn [iter_pos].
  - rewrite IH, IH, shr_1_m; try assumption.
    + rewrite !Z.div_div by lia. f_equal.
      rewrite <- Z.pow_add_r by lia. rewrite <- Z.pow_succ_r by lia.
      f_equal. lia.
    + now apply shr_1_nonneg.
    + rewrite IH by now apply shr_1_nonneg.
      apply Z.div_pos; [now apply shr_1_nonneg | lia].
  - rewrite IH, IH; try assumption.
    + rewrite !Z.div_div by lia. f_equal.
      rewrite <- Z.pow_add_r by lia. f_equal. lia.
    + rewrite IH by assumption. apply Z.div_pos; [assumption | lia].
  - rewrite shr_1_m by assumption. reflexivity.
Qed.

Lemma shr_spec (mrs : shr_record) (e n : Z) :
  0 <= shr_m mrs ->
  0 <= shr_m (fst (shr mrs e n))
  /\ snd (shr mrs e n) = e + Z.max 0 n
  /\ shr_m (fst (shr mrs e n)) * 2 ^ Z.max 0 n <= shr_m mrs.
Proof.
  intros H. destruct n as [|p|p]; cbn [shr fst snd].
  - change (Z.max 0 0) with 0. rewrite Z.add_0_r. change (2 ^ 0) with 1. lia.
  - rewrite iter_shr_m by exact H.
    replace (Z.max 0 (Z.pos p)) with (Z.pos p) by lia.
    assert (0 < 2 ^ Z.pos p) as P by (apply Z.pow_pos_nonneg; lia).
    split; [apply Z.div_pos; lia|]. split; [reflexivity|].
    rewrite Z.mul_comm. apply Z.mul_div_le. exact P.
  - replace (Z.max 0 (Z.neg p)) with 0 by lia.
    rewrite Z.add_0_r. change (2 ^ 0) with 1. lia.
Qed.

Lemma shr_m_of_loc (m : Z) (l : location) : shr_m (shr_record_of_loc m l) = m.
Proof. destruct l as [|[| |]]; reflexivity. Qed.

Lemma round_nearest_even_bounds (m : Z) (l : location) :
  m <= round_nearest_even m l <= m + 1.
Proof.
  destruct l as [|[| |]]; cbn [round_nearest_even]; try lia.
  destruct (Z.even m); lia.
Qed.

(** Rounding never adds more than one unit of the exponent it settles
    on. *)
Lemma round_aux_upper (s : bool) (m e : Z) (l : location) :
  0 <= m ->
  exists m3 e3,
    0 <= m3 /\ e <= e3
    /\ m3 * 2 ^ (e3 - e)
       <= m + 2 ^ Z.max 0 (fexp Float.prec Float.emax (Zdigits2 m + e) - e)
    /\ binary_round_aux Float.prec Float.emax s m e l = classify s m3 e3.
Proof.
  intros Hm. unfold binary_round_aux, shr_fexp.
  set (n := fexp Float.prec Float.emax (Zdigits2 m + e) - e).
  pose proof (shr_spec (shr_record_of_loc m l) e n) as S1.
  rewrite shr_m_of_loc in S1. specialize (S1 Hm).
  destruct (shr (shr_record_of_loc m l) e n) as [mrs1 e1].
  cbn [fst snd] in S1. destruct S1 as [P1 [E1 B1]].
  set (m2 := round_nearest_even (shr_m mrs1) (loc_of_shr_record mrs1)).
  pose proof (round_nearest_even_bounds (shr_m mrs1) (loc_of_shr_record mrs1)) as R.
  fold m2 in R.
  set (n2 := fexp Float.prec Float.emax (Zdigits2 m2 + e1) - e1).
  pose proof (shr_spec (shr_record_of_loc m2 loc_Exact) e1 n2) as S2.
  rewrite shr_m_of_loc in S2. specialize (S2 ltac:(lia)).
  destruct (shr (shr_record_of_loc m2 loc_Exact) e1 n2) as [mrs2 e2].
  cbn [fst snd] in S2. destruct S2 as [P2 [E2 B2]].
  exists (shr_m mrs2), e2.
  split; [exact P2|]. split; [lia|]. split; [|reflexivity].
  replace (e2 - e) with (Z.max 0 n2 + Z.max 0 n) by lia.
  rewrite Z.pow_add_r by lia.
  assert (0 < 2 ^ Z.max 0 n) by (apply Z.pow_pos_nonneg; lia).
  assert (0 < 2 ^ Z.max 0 n2) by (apply Z.pow_pos_nonneg; lia).
  nia.
Qed.

Lemma scale_large : 1120 <= scale.
Proof. unfold scale. lia. Qed.

Lemma pow2_pos (k : Z) : 0 <= k -> 0 < 2 ^ k.
Proof. intros H. apply Z.pow_pos_nonneg; lia. Qed.

(** A rounded result within the scale is a float within the bound. *)
Lemma classify_below (low m3 e3 c : Z) :
  0 <= m3 -> low <= e3 -> - scale <= low -> c < 2 ^ 60 ->
  m3 * 2 ^ (e3 + scale) <= c * 2 ^ (scale - 52) ->
  below low (classify false m3 e3) c.
Proof.
  intros Hm Hlow Hs Hc H. pose proof scale_large as K.
  destruct m3 as [|p|p]; [exact I| |lia].
  cbn [classify].
  destruct (Z.leb_spec e3 (Float.emax - Float.prec)) as [L|G].
  - cbn [below]. auto.
  - exfalso. unfold Float.emax, Float.prec in G.
    assert (2 ^ (60 + (scale - 52)) <= 2 ^ (e3 + scale))
      by (apply Z.pow_le_mono_r; lia).
    rewrite Z.pow_add_r in H0 by lia.
    pose proof (pow2_pos (scale - 52) ltac:(lia)).
    pose proof (pow2_pos (e3 + scale) ltac:(lia)).
    nia.
Qed.

Lemma div_core_quotient (a b : positive) :
  (a <= b)%positive ->
  exists q e l,
    SFdiv_core_binary Float.prec Float.emax (Zpos a) 0 (Zpos b) 0 = (q, e, l)
    /\ -1074 <= e <= -53 /\ 0 <= q <= 2 ^ (- e).
Proof.
  intros Hab. unfold SFdiv_core_binary.
  set (d1 := Zdigits2 (Zpos a)). set (d2 := Zdigits2 (Zpos b)).
  assert (d1 <= d2) as Hd.
  { unfold d1. apply RoundFacts.digits_le; [lia | unfold d2; simpl; lia |].
    unfold d2. simpl. pose proof (digits_bounds b). lia. }
  set (e := Z.min (fexp Float.prec Float.emax (d1 + 0 - (d2 + 0))) (0 - 0)).
  assert (-1074 <= e <= -53) as He
      by (unfold e, fexp, emin, Float.prec, Float.emax; lia).
  destruct (0 - 0 - e) as [|s|s] eqn:Es; try lia.
  rewrite Z.shiftl_mul_pow2 by lia.
  assert (Z.pos s = - e) as Hs by lia.
  pose proof (pow2_pos (- e) ltac:(lia)) as P.
  assert (Z.div_eucl (Zpos a * 2 ^ Z.pos s) (Zpos b)
          = ((Zpos a * 2 ^ Z.pos s) / Zpos b, (Zpos a * 2 ^ Z.pos s) mod Zpos b)) as D.
  { unfold Z.div, Z.modulo. now destruct (Z.div_eucl _ _). }
  rewrite D. do 3 eexists. split; [reflexivity|]. split; [exact He|].
  rewrite Hs. split.
  - apply Z.div_pos; nia.
  - apply Z.div_le_upper_bound; [lia|]. nia.
Qed.

(** The quotient of two positive integers, the first at most the second,
    is at most [1 + 2 ^ -52]. *)
Lemma div_below (a b : positive) :
  (a <= b)%positive ->
  below (-1074)
        (SFdiv Float.prec Float.emax (S754_finite false a 0) (S754_finite false b 0))
        (2 ^ 52 + 1).
Proof.
  intros Hab. cbn [SFdiv xorb].
  destruct (div_core_quotient a b Hab) as [q [e [l [E [He Hq]]]]].
  rewrite E.
  destruct (round_aux_upper false q e l) as [m3 [e3 [P3 [L3 [B3 ->]]]]]; [lia|].
  pose proof scale_large as K.
  apply classify_below; try lia.
  assert (Zdigits2 q <= - e + 1) as D.
  { apply digits_le; try lia.
    rewrite Z.pow_add_r by lia. pose proof (pow2_pos (- e) ltac:(lia)). lia. }
  assert (Z.max 0 (fexp Float.prec Float.emax (Zdigits2 q + e) - e) <= - e - 52) as N
      by (unfold fexp, emin, Float.prec, Float.emax; lia).
  apply (Z.pow_le_mono_r 2) in N; [|lia].
  replace (- e) with (52 + (- e - 52)) in Hq by lia.
  rewrite Z.pow_add_r in Hq by lia.
  replace (e3 + scale) with ((e3 - e) + (scale + e)) by lia.
  replace (scale - 52) with ((- e - 52) + (scale + e)) by lia.
  rewrite (Z.pow_add_r 2 (e3 - e) (scale + e)) by lia.
  rewrite (Z.pow_add_r 2 (- e - 52) (scale + e)) by lia.
  pose proof (pow2_pos (scale + e) ltac:(lia)) as Y.
  set (r := 2 ^ Z.max 0 (fexp Float.prec Float.emax (Zdigits2 q + e) - e)) in *.
  set (u := 2 ^ (- e - 52)) in *.
  rewrite !Z.mul_assoc.
  apply Z.mul_le_mono_nonneg_r; [lia|]. lia.
Qed.

Lemma of_int_100 :
  Float.of_int 100 = S754_finite false 7036874417766400 (-46).
Proof. vm_compute. reflexivity. Qed.

(** A ratio of at most [1 + 2 ^ -52] times 100 is at most
    [100 * (1 + 2 ^ -52) + 2 ^ -45]. *)
Lemma mul_below (x : Float.float) :
  below (-1074) x (2 ^ 52 + 1) ->
  below (-1120) (Float.mul_int x 100) (100 * (2 ^ 52 + 1) + 2 ^ 7).
Proof.
  unfold Float.mul_int. rewrite of_int_100.
  destruct x as [[|]|[|]| |[|] m e]; cbn [below]; try contradiction.
  - intros _. exact I.
  - intros [Le Hv]. cbn [SFmul xorb].
    pose proof scale_large as K.
    set (M := 7036874417766400%positive).
    destruct (round_aux_upper false (Zpos (m * M)) (e + -46) loc_Exact)
      as [m3 [e3 [P3 [L3 [B3 ->]]]]]; [lia|].
    pose proof (pow2_pos (scale - 52) ltac:(lia)) as T.
    pose proof (pow2_pos (e + scale) ltac:(lia)) as V.
    assert (2 ^ (scale + 1) = 2 ^ 53 * 2 ^ (scale - 52)) as S1.
    { rewrite <- Z.pow_add_r by lia. f_equal; lia. }
    assert (e <= 0) as E0.
    { destruct (Z_le_gt_dec e 0) as [G|G]; [exact G|]. exfalso.
      assert (2 ^ (scale + 1) <= 2 ^ (e + scale))
        by (apply Z.pow_le_mono_r; lia).
      change (2 ^ 52) with 4503599627370496 in Hv.
      change (2 ^ 53) with 9007199254740992 in S1. nia. }
    assert (Zpos m < 2 ^ (1 - e)) as Hm.
    { apply (Z.mul_lt_mono_pos_r (2 ^ (e + scale))); [exact V|].
      rewrite <- Z.pow_add_r by lia.
      replace (1 - e + (e + scale)) with (scale + 1) by lia.
      rewrite S1.
      change (2 ^ 52) with 4503599627370496 in Hv.
      change (2 ^ 53) with 9007199254740992. lia. }
    assert (Zpos (m * M) < 2 ^ (54 - e)) as HP.
    { rewrite Pos2Z.inj_mul.
      replace (54 - e) with ((1 - e) + 53) by lia.
      rewrite Z.pow_add_r by lia.
      assert (Zpos M < 2 ^ 53) by (unfold M; reflexivity).
      pose proof (pow2_pos (1 - e) ltac:(lia)). nia. }
    assert (Zdigits2 (Zpos (m * M)) <= 54 - e) as D
        by (apply digits_le; lia).
    assert (Z.max 0 (fexp Float.prec Float.emax
                          (Zdigits2 (Zpos (m * M)) + (e + -46)) - (e + -46))
            <= 1 - e) as N
        by (unfold fexp, emin, Float.prec, Float.emax; lia).
    apply (Z.pow_le_mono_r 2) in N; [|lia].
    apply classify_below; try lia.
    set (W := 2 ^ (e - 46 + scale)).
    assert (0 < W) as HW by (apply pow2_pos; lia).
    assert (2 ^ (e3 + scale) = 2 ^ (e3 - (e + -46)) * W) as R1.
    { unfold W. rewrite <- Z.pow_add_r by lia. f_equal; lia. }
    assert (Zpos M * W = 100 * 2 ^ (e + scale)) as R2.
    { unfold W. change (Zpos M) with (100 * 2 ^ 46).
      rewrite <- Z.mul_assoc, <- Z.pow_add_r by lia. do 2 f_equal; lia. }
    assert (2 ^ (1 - e) * W = 2 ^ 7 * 2 ^ (scale - 52)) as R3.
    { unfold W. rewrite <- !Z.pow_add_r by lia. f_equal; lia. }
    rewrite R1, Z.mul_assoc.
    apply Z.le_trans
      with ((Zpos (m * M) + 2 ^ (1 - e)) * W).
    { apply Z.mul_le_mono_nonneg_r; lia. }
    rewrite Z.mul_add_distr_r, R3, Pos2Z.inj_mul, <- Z.mul_assoc, R2.
    change (2 ^ 52) with 4503599627370496 in *.
    change (2 ^ 7) with 128 in *. nia.
Qed.

Lemma div_half_even_le (a b n : Z) :
  0 <= a -> 0 < b -> 2 * a < (2 * n + 1) * b ->
  0 <= Float.div_half_even a b <= n.
Proof.
  intros Ha Hb H. unfold Float.div_half_even.
  pose proof (Z.div_mod a b ltac:(lia)) as E.
  pose proof (Z.mod_pos_bound a b Hb) as R.
  assert (0 <= a / b) as Q by (apply Z.div_pos; lia).
  destruct (Z.compare_spec (2 * (a mod b)) b) as [C|C|C];
    [destruct (Z.even (a / b))| |]; nia.
Qed.

Lemma hundredths_bounds (m : positive) (e : Z) :
  below (-1120) (S754_finite false m e) (100 * (2 ^ 52 + 1) + 2 ^ 7) ->
  0 <= Float.hundredths m e <= 10000.
Proof.
  cbn [below]. intros [Le Hv]. pose proof scale_large as K.
  pose proof (pow2_pos (scale - 52) ltac:(lia)) as T.
  assert (2 ^ scale = 2 ^ 52 * 2 ^ (scale - 52)) as S0.
  { rewrite <- Z.pow_add_r by lia. f_equal; lia. }
  change (2 ^ 52) with 4503599627370496 in *. change (2 ^ 7) with 128 in *.
  unfold Float.hundredths. destruct e as [|p|k].
  - rewrite Z.add_0_l, S0 in Hv. change (2 ^ 0) with 1. nia.
  - rewrite Z.pow_add_r, S0 in Hv by lia.
    pose proof (pow2_pos (Zpos p) ltac:(lia)). nia.
  - pose proof (pow2_pos (Zpos k) ltac:(lia)) as P.
    apply div_half_even_le; [lia | exact P |].
    assert (2 ^ (Z.neg k + scale) * 2 ^ Zpos k = 2 ^ scale) as S1.
    { rewrite <- Z.pow_add_r by lia. f_equal; lia. }
    pose proof (pow2_pos (Z.neg k + scale) ltac:(lia)) as V.
    rewrite S0 in S1. nia.
Qed.

Lemma hundredths_in_range :
  forallb hundredth_in_range (positives_upto 10000) = true.
Proof. vm_compute. reflexivity. Qed.

Lemma hundredth_checked (h : positive) :
  Zpos h <= 10000 ->
  exists p,
    Float.checked
      (SFdiv Float.prec Float.emax (S754_finite false h 0) (Float.exact 100))
    = Ok p
    /\ percent_in_range p = true.
Proof.
  intros H.
  pose proof (proj1 (forallb_forall _ _) hundredths_in_range h) as C.
  assert (In h (positives_upto 10000)) as I.
  { unfold positives_upto. rewrite <- (Pos2Nat.id h).
    apply in_map. apply in_seq. lia. }
  specialize (C I). unfold hundredth_in_range in C.
  destruct (Float.checked _) as [p|e]; [|discriminate C].
  exists p. auto.
Qed.

Lemma round2_in_range (y : Float.float) :
  below (-1120) y (100 * (2 ^ 52 + 1) + 2 ^ 7) ->
  exists p, Float.round2 y = Ok p /\ percent_in_range p = true.
Proof.
  intros H. destruct y as [[|]|[|]| |[|] m e]; cbn [below] in H;
    try contradiction.
  - exists (S754_zero false). split; reflexivity.
  - pose proof (hundredths_bounds m e H) as B. cbn [Float.round2].
    destruct (Float.hundredths m e) as [|h|h]; [|apply hundredth_checked|]; try lia.
    exists (S754_zero false). split; reflexivity.
Qed.

Lemma checked_below (low : Z) (x : Float.float) (c : Z) :
  below low x c -> Float.checked x = Ok x.
Proof. destruct x as [[|]|[|]| |[|] m e]; cbn; try contradiction; reflexivity. Qed.

End RoundFacts.

(** X9: when the matched count is between 0 and the total and the total
    is positive, the percentage raises nothing and is a float between 0.0
    and 100.0. *)
Theorem percentage_in_range (matched total : Z) :
  0 <= matched <= total -> 0 < total ->
  exists percent,
    percentage_of_total_logs (JInt matched) (JInt total) = Ok percent
    /\ percent_in_range percent = true.
Proof.
  intros Hm Ht. unfold percentage_of_total_logs, Float.int_truediv.
  destruct (Z.eqb_spec total 0) as [->|_]; [lia|].
  assert (below (-1074)
                (SFdiv Float.prec Float.emax (Float.exact matched) (Float.exact total))
                (2 ^ 52 + 1)) as B.
  { destruct total as [|t|t]; try lia.
    destruct matched as [|a|a]; try lia.
    - exact I.
    - apply RoundFacts.div_below. lia. }
  rewrite (RoundFacts.checked_below _ _ _ B). cbn [rbind].
  apply RoundFacts.round2_in_range. now apply RoundFacts.mul_below.
Qed.


Lemma percentage_in_range_witness :
  exists percent,
    percentage_of_total_logs (JInt 1) (JInt 3) = Ok percent
    /\ percent_in_range percent = true.
Proof.
  apply (percentage_in_range 1 3); lia.
Defined.

(** ** The further properties on concrete sessions *)

Lemma first_column_assigns_all_witness :
  snd (generate_content_col2
         ["refund"; "delay"]
         {| matching_call_logs := Some (JInt 45);
            all_call_logs := Some (JInt 300);
            matching_email_logs := Some (JInt 45);
            all_email_logs := Some (JInt 300) |})
  <> Raise IndexError.
Proof.
  destruct (first_column_assigns_all
              january (sample_es two_days 45 300) "one"
              (fst (generate_content_col1 january (sample_es two_days 45 300) "one"))
              ["refund"; "delay"]
              {| matching_call_logs := Some (JInt 45);
                 all_call_logs := Some (JInt 300);
                 matching_email_logs := Some (JInt 45);
                 all_email_logs := Some (JInt 300) |})
    as [_ [_ H]].
  - vm_compute. reflexivity.
  - exact H.
Defined.

Lemma complete_run_witness :
  generate_content january (sample_es two_days 45 300) "one"
  = ((planned_searches "refund and delay" ("2024-01-01", "2024-01-31")
      ++ [EvBarChart [(Dict.KStr "2024-01-01", JInt 3);
                      (Dict.KStr "2024-01-02", JInt 5)] "calls";
          EvBarChart [(Dict.KStr "2024-01-01", JInt 3);
                      (Dict.KStr "2024-01-02", JInt 5)] "emails";
          count_line (JInt 45) "call logs containing keywords:" "refund" "delay";
          percent_line (Float.of_int 15) "percent of all call logs";
          count_line (JInt 45) "email logs containing keywords:" "refund" "delay";
          percent_line (Float.of_int 15) "percent of all email logs"])%list,
     Ok tt).
Proof.
  apply (complete_run
           january (sample_es two_days 45 300) "one" "refund" "delay" []
           (histogram_response two_days) (cardinality_response 45)
           (cardinality_response 300)
           (histogram_response two_days) (cardinality_response 45)
           (cardinality_response 300)
           [(Dict.KStr "2024-01-01", JInt 3); (Dict.KStr "2024-01-02", JInt 5)]
           [(Dict.KStr "2024-01-01", JInt 3); (Dict.KStr "2024-01-02", JInt 5)]
           (JInt 45) (JInt 300) (JInt 45) (JInt 300)
           (Float.of_int 15) (Float.of_int 15));
    vm_compute; reflexivity.
Defined.

Lemma email_percentage_fails_last_witness :
  generate_content january no_email_es "one"
  = ((fst (generate_content_col1 january no_email_es "one")
      ++ [count_line (JInt 45) "call logs containing keywords:" "refund" "delay";
          percent_line (Float.of_int 15) "percent of all call logs";
          count_line (JInt 0) "email logs containing keywords:"
                     "refund" "delay"])%list,
     Raise ZeroDivisionError).
Proof.
  apply (email_percentage_fails_last
           january no_email_es "one" "refund" "delay" []
           (fst (generate_content_col1 january no_email_es "one"))
           (JInt 45) (JInt 300) (JInt 0) (JInt 0));
    vm_compute; reflexivity.
Defined.
